(** * House-cleaning booking page: pricing engine and submission pipeline

    A shallow embedding of [src/app/(Landing)/booking/house-cleaning/page.tsx].

    - JavaScript [number]s that take part in the price arithmetic are IEEE
      binary64 values, modelled by Rocq's primitive [float]s.
    - Room counts are the non-negative integers the page produces with its
      +/- buttons.  On such values (below 2^53) the double-precision sum
      of the source is exact, so counts are kept in [N] and converted to
      [float] where the source starts multiplying by prices.  Sums,
      increments and decrements of counts are the source's as long as
      they stay at or below [MAX_SAFE_INTEGER]; a statement that reads a
      total or changes a count, for arbitrary counts, says so in a
      hypothesis.
    - Cookie text is ASCII; [trim] removes the ASCII white space, which
      is all the white space of such text.  Statements that depend on how
      a cookie is found assume an ASCII cookie jar.
    - Object literals are association lists in insertion order; property
      reads with a computed key go through the prototype chain, as they do
      in JavaScript. *)

From Stdlib Require Import ZArith NArith List Bool Ascii String Lia.
From Stdlib Require Import PrimFloat SpecFloat FloatOps.
From Stdlib Require Import DecimalString.
From stdpp Require Import base option list strings gmap.

Set Warnings "-inexact-float,-register-all".
Set Default Proof Using "Type".

Local Open Scope string_scope.
Local Open Scope list_scope.

(** ** JavaScript objects used as dictionaries *)
Module Js.

(** An object literal: own properties in insertion order. *)
Definition Obj (A : Type) : Type := list (string * A).

Definition keys {A} (o : Obj A) : list string := map fst o.
Definition values {A} (o : Obj A) : list A := map snd o.

(** [o.hasOwnProperty(k)] and the own-property part of [o[k]]. *)
Fixpoint own {A} (o : Obj A) (k : string) : option A :=
  match o with
  | [] => None
  | (k', v) :: o' => if String.eqb k' k then Some v else own o' k
  end.

Definition hasOwnProperty {A} (o : Obj A) (k : string) : bool :=
  match own o k with Some _ => true | None => false end.

(** [o[k] = v] on a key the object already owns: the value is replaced
    in place and the key order is unchanged.  On a new key the property
    is appended. *)
Fixpoint set {A} (o : Obj A) (k : string) (v : A) : Obj A :=
  match o with
  | [] => [(k, v)]
  | (k', v') :: o' =>
      if String.eqb k' k then (k', v) :: o' else (k', v') :: set o' k v
  end.

(** Property names every object literal inherits from [Object.prototype].
    Each of them reads as a function (or, for [__proto__], the prototype
    object itself): a truthy value with none of the fields the page's
    tables carry. *)
Definition Object_prototype : list string :=
  [ "constructor"; "__defineGetter__"; "__defineSetter__";
    "hasOwnProperty"; "__lookupGetter__"; "__lookupSetter__";
    "isPrototypeOf"; "propertyIsEnumerable"; "toString"; "valueOf";
    "__proto__"; "toLocaleString" ].

Definition inherited (k : string) : bool :=
  existsb (String.eqb k) Object_prototype.

(** The result of the property read [o[k]]. *)
Inductive Read (A : Type) : Type :=
| Own (a : A)      (* an own property of the literal *)
| Inherited        (* found on Object.prototype *)
| Undefined.       (* not found: [undefined] *)
Arguments Own {A} a.
Arguments Inherited {A}.
Arguments Undefined {A}.

Definition get {A} (o : Obj A) (k : string) : Read A :=
  match own o k with
  | Some a => Own a
  | None => if inherited k then Inherited else Undefined
  end.

(** [!x] for a value read from a table of object-valued entries. *)
Definition falsy {A} (r : Read A) : bool :=
  match r with Undefined => true | _ => false end.

(** [x.f] on such a value: [undefined] unless [x] is a table entry. *)
Definition field {A B} (f : A -> B) (r : Read A) : option B :=
  match r with Own a => Some (f a) | _ => None end.

(** [ToNumber]: [undefined] becomes [NaN]. *)
Definition ToNumber (v : option float) : float :=
  match v with Some x => x | None => nan end.

(** [Number(n)] for an integer count: the nearest double. *)
Definition Number (n : N) : float :=
  SF2Prim (binary_normalize prec emax (Z.of_N n) 0 false).

(** [Math.round]: the nearest integer, ties towards +infinity; values
    that are already integral, infinities, zeros and NaN are returned
    unchanged, and a result of zero keeps the sign of the argument. *)
Definition Math_round (x : float) : float :=
  match Prim2SF x with
  | S754_finite s m e =>
      if (0 <=? e)%Z then x
      else
        let sm := if s then Z.neg m else Z.pos m in
        (* floor (sm * 2^e + 1/2) *)
        let n := ((2 * sm + 2 ^ (- e)) / 2 ^ (1 - e))%Z in
        if (n =? 0)%Z then (if s then neg_zero else zero)
        else SF2Prim (binary_normalize prec emax n 0 false)
  | _ => x
  end.

End Js.

(** ** Room-label translation *)

Definition roomMapping : Js.Obj string :=
  [ ("Living Room", "Living Room");
    ("Terrace", "Terrace/Balcony");
    ("Bedroom", "Bedrooms");
    ("Bathroom", "Bathrooms");
    ("Kitchen", "Kitchen");
    ("Dining", "Dining Room");
    ("Garage", "Garage") ].

Definition backendItems0 : Js.Obj N :=
  [ ("Living Room", 0%N);
    ("Bedrooms", 0%N);
    ("Bathrooms", 0%N);
    ("Kitchen", 0%N);
    ("Dining Room", 0%N);
    ("Terrace/Balcony", 0%N);
    ("Garage", 0%N);
    ("Study/Office", 0%N) ].

(** One iteration of the [forEach] body.  [frontendItems[frontendKey]] is
    the value paired with the key being visited.  An inherited
    [roomMapping] entry is truthy, but as a property key it is the text of
    a built-in, which no backend label equals: [hasOwnProperty] is false. *)
Definition mapRoom (backendItems : Js.Obj N) (entry : string * N) : Js.Obj N :=
  let (frontendKey, count) := entry in
  match Js.get roomMapping frontendKey with
  | Js.Own backendKey =>
      if negb (String.eqb backendKey EmptyString) && Js.hasOwnProperty backendItems backendKey
      then Js.set backendItems backendKey count
      else backendItems
  | Js.Inherited => backendItems
  | Js.Undefined => backendItems
  end.

Definition mapRoomsToBackend (frontendItems : Js.Obj N) : Js.Obj N :=
  fold_left mapRoom frontendItems backendItems0.

(** [Object.values(o).reduce((sum, count) => sum + Number(count), 0)],
    for counts whose sum is at most [MAX_SAFE_INTEGER]: there every
    partial sum of the doubles is exact, in any order of the keys.  It is
    also the exact sum of the counts, as a statement about a selection
    needs it. *)
Definition sumValues (o : Js.Obj N) : N :=
  fold_left (fun sum count => (sum + count)%N) (Js.values o) 0%N.

(** ** Pricing engine *)

Record CleaningPriceOptions : Type := {
  opt_category : option string;
  opt_package : option string;
  opt_homeSize : option string;
  opt_frequency : option string;
}.

Definition noOptions : CleaningPriceOptions :=
  {| opt_category := None; opt_package := None;
     opt_homeSize := None; opt_frequency := None |}.

Record CategoryData : Type := { basePrice : float; pricePerRoom : float }.
Record Multiplier : Type := { multiplier : float }.
Record FrequencyData : Type := { discount : float }.

Definition CLEANING_CATEGORIES : Js.Obj CategoryData :=
  [ ("Standard Cleaning", {| basePrice := 8000; pricePerRoom := 1200 |});
    ("Deep Cleaning", {| basePrice := 15000; pricePerRoom := 2000 |});
    ("Move-in Cleaning", {| basePrice := 20000; pricePerRoom := 2500 |});
    ("Move-out Cleaning", {| basePrice := 22000; pricePerRoom := 2800 |}) ].

Definition CLEANING_PACKAGES : Js.Obj Multiplier :=
  [ ("Basic Package", {| multiplier := 0.8 |});
    ("Standard Package", {| multiplier := 1 |});
    ("Premium Package", {| multiplier := 1.4 |});
    ("Luxury Package", {| multiplier := 1.8 |}) ].

Definition HOME_SIZES : Js.Obj Multiplier :=
  [ ("studio", {| multiplier := 0.7 |});
    ("small", {| multiplier := 1 |});
    ("medium", {| multiplier := 1.5 |});
    ("large", {| multiplier := 2.2 |}) ].

Definition FREQUENCIES : Js.Obj FrequencyData :=
  [ ("one-time", {| discount := 0 |});
    ("monthly", {| discount := 0.05 |});
    ("bi-weekly", {| discount := 0.1 |});
    ("weekly", {| discount := 0.15 |}) ].

(** The non-empty [breakdown] object.  The three fields copied from the
    tables are [None] when the source reads [undefined]. *)
Record Breakdown : Type := {
  bd_basePrice : option float;
  bd_roomCount : float;
  bd_pricePerRoom : option float;
  bd_packageMultiplier : option float;
  bd_sizeMultiplier : option float;
  bd_frequencyDiscount : option float;
  bd_subtotal : float;
  bd_discount : float;
  bd_total : float;
}.

(** [breakdown = None] is the empty object [{}]. *)
Record Pricing : Type := {
  finalPrice : float;
  breakdown : option Breakdown;
}.

Definition zeroPricing : Pricing := {| finalPrice := 0; breakdown := None |}.

Definition calculateCleaningPrice
    (items : Js.Obj N) (options : option CleaningPriceOptions) : Pricing :=
  let options := default noOptions options in
  let category := default "Standard Cleaning" (opt_category options) in
  let packageName := default "Standard Package" (opt_package options) in
  let homeSize := default "small" (opt_homeSize options) in
  let frequency := default "one-time" (opt_frequency options) in
  let categoryData := Js.get CLEANING_CATEGORIES category in
  let packageData := Js.get CLEANING_PACKAGES packageName in
  let sizeData := Js.get HOME_SIZES homeSize in
  let frequencyData := Js.get FREQUENCIES frequency in
  if Js.falsy categoryData || Js.falsy packageData
     || Js.falsy sizeData || Js.falsy frequencyData
  then zeroPricing
  else
    let backendItems := mapRoomsToBackend items in
    let totalItems := sumValues backendItems in
    if (totalItems =? 0)%N then zeroPricing
    else
      let totalItems := Js.Number totalItems in
      let baseTotal :=
        ((Js.ToNumber (Js.field basePrice categoryData)
          + totalItems * Js.ToNumber (Js.field pricePerRoom categoryData))
         * Js.ToNumber (Js.field multiplier packageData)
         * Js.ToNumber (Js.field multiplier sizeData))%float in
      let discountedPrice :=
        (baseTotal * (1 - Js.ToNumber (Js.field discount frequencyData)))%float in
      let finalPrice := Js.Math_round discountedPrice in
      {| finalPrice := finalPrice;
         breakdown := Some
           {| bd_basePrice := Js.field basePrice categoryData;
              bd_roomCount := totalItems;
              bd_pricePerRoom := Js.field pricePerRoom categoryData;
              bd_packageMultiplier := Js.field multiplier packageData;
              bd_sizeMultiplier := Js.field multiplier sizeData;
              bd_frequencyDiscount := Js.field discount frequencyData;
              bd_subtotal := baseTotal;
              bd_discount := (baseTotal - discountedPrice)%float;
              bd_total := finalPrice |} |}.


(** The page's own option state always supplies the four fields. *)
Definition optionsOf (category package homeSize frequency : string)
  : CleaningPriceOptions :=
  {| opt_category := Some category; opt_package := Some package;
     opt_homeSize := Some homeSize; opt_frequency := Some frequency |}.

(** ** The pricing contract as the specification words it

    The four enumerations of the data model, each with its display name
    and coefficient, and the price formula of section 4.1. *)
Module Spec.

Inductive Category : Type :=
  StandardCleaning | DeepCleaning | MoveInCleaning | MoveOutCleaning.
Inductive Package : Type :=
  BasicPackage | StandardPackage | PremiumPackage | LuxuryPackage.
Inductive HomeSize : Type := Studio | Small | Medium | Large.
Inductive Frequency : Type := OneTime | Monthly | BiWeekly | Weekly.

Definition categoryName (c : Category) : string :=
  match c with
  | StandardCleaning => "Standard Cleaning"
  | DeepCleaning => "Deep Cleaning"
  | MoveInCleaning => "Move-in Cleaning"
  | MoveOutCleaning => "Move-out Cleaning"
  end.

Definition packageName (p : Package) : string :=
  match p with
  | BasicPackage => "Basic Package"
  | StandardPackage => "Standard Package"
  | PremiumPackage => "Premium Package"
  | LuxuryPackage => "Luxury Package"
  end.

Definition homeSizeName (s : HomeSize) : string :=
  match s with
  | Studio => "studio" | Small => "small" | Medium => "medium" | Large => "large"
  end.

Definition frequencyName (f : Frequency) : string :=
  match f with
  | OneTime => "one-time" | Monthly => "monthly"
  | BiWeekly => "bi-weekly" | Weekly => "weekly"
  end.

Definition categoryBase (c : Category) : float :=
  match c with
  | StandardCleaning => 8000 | DeepCleaning => 15000
  | MoveInCleaning => 20000 | MoveOutCleaning => 22000
  end.

Definition categoryPerRoom (c : Category) : float :=
  match c with
  | StandardCleaning => 1200 | DeepCleaning => 2000
  | MoveInCleaning => 2500 | MoveOutCleaning => 2800
  end.

Definition packageMultiplier (p : Package) : float :=
  match p with
  | BasicPackage => 0.8 | StandardPackage => 1
  | PremiumPackage => 1.4 | LuxuryPackage => 1.8
  end.

Definition sizeMultiplier (s : HomeSize) : float :=
  match s with
  | Studio => 0.7 | Small => 1 | Medium => 1.5 | Large => 2.2
  end.

Definition frequencyDiscount (f : Frequency) : float :=
  match f with
  | OneTime => 0 | Monthly => 0.05 | BiWeekly => 0.1 | Weekly => 0.15
  end.

Definition options (c : Category) (p : Package) (s : HomeSize) (f : Frequency)
  : CleaningPriceOptions :=
  optionsOf (categoryName c) (packageName p) (homeSizeName s) (frequencyName f).

Definition subtotal (c : Category) (p : Package) (s : HomeSize)
    (totalRooms : float) : float :=
  ((categoryBase c + totalRooms * categoryPerRoom c)
   * packageMultiplier p * sizeMultiplier s)%float.

Definition discountedPrice (c : Category) (p : Package) (s : HomeSize)
    (f : Frequency) (totalRooms : float) : float :=
  (subtotal c p s totalRooms * (1 - frequencyDiscount f))%float.

Definition computePrice (c : Category) (p : Package) (s : HomeSize)
    (f : Frequency) (totalRooms : float) : Pricing :=
  let final := Js.Math_round
    ((categoryBase c + totalRooms * categoryPerRoom c)
     * packageMultiplier p * sizeMultiplier s * (1 - frequencyDiscount f))%float in
  {| finalPrice := final;
     breakdown := Some
       {| bd_basePrice := Some (categoryBase c);
          bd_roomCount := totalRooms;
          bd_pricePerRoom := Some (categoryPerRoom c);
          bd_packageMultiplier := Some (packageMultiplier p);
          bd_sizeMultiplier := Some (sizeMultiplier s);
          bd_frequencyDiscount := Some (frequencyDiscount f);
          bd_subtotal := subtotal c p s totalRooms;
          bd_discount :=
            (subtotal c p s totalRooms - discountedPrice c p s f totalRooms)%float;
          bd_total := final |} |}.

(** The room labels of a [RoomSelection]. *)
Definition frontendLabels : list string :=
  [ "Living Room"; "Terrace"; "Bedroom"; "Bathroom"; "Kitchen"; "Dining";
    "Garage" ].

Definition recognized (label : string) : bool :=
  existsb (String.eqb label) frontendLabels.

(** Sum of the counts selected under recognized labels. *)
Definition recognizedTotal (selection : Js.Obj N) : N :=
  fold_right (fun entry acc =>
                if recognized (fst entry) then (snd entry + acc)%N else acc)
             0%N selection.

(** A name outside an enumeration. *)
Definition unrecognized (names : list string) (x : string) : Prop :=
  ~ In x names.

Definition categoryNames : list string :=
  map categoryName [StandardCleaning; DeepCleaning; MoveInCleaning; MoveOutCleaning].
Definition packageNames : list string :=
  map packageName [BasicPackage; StandardPackage; PremiumPackage; LuxuryPackage].
Definition homeSizeNames : list string :=
  map homeSizeName [Studio; Small; Medium; Large].
Definition frequencyNames : list string :=
  map frequencyName [OneTime; Monthly; BiWeekly; Weekly].

End Spec.

(** ** Estimated duration and turnaround *)

(** [`${n}`] for a non-negative integer. *)
Definition decimal (n : N) : string := NilEmpty.string_of_uint (N.to_uint n).

(** [getEstimatedTime] closes over the [totalItems] state variable.  The
    product, the sum, the division with [Math.floor] and the remainder
    are the source's doubles as long as the minutes are at most
    [MAX_SAFE_INTEGER]. *)
Definition getEstimatedTime (totalItems : N) : string :=
  let baseTime := 60%N in
  let timePerItem := 30%N in
  let totalMinutes := (baseTime + totalItems * timePerItem)%N in
  let hours := (totalMinutes / 60)%N in
  let minutes := (totalMinutes mod 60)%N in
  decimal hours +:+ "h " +:+ (if (0 <? minutes)%N then decimal minutes +:+ "m" else EmptyString).

Definition turnarounds : Js.Obj string :=
  [ ("Standard Cleaning", "2-4 hours");
    ("Deep Cleaning", "4-6 hours");
    ("Move-in Cleaning", "5-8 hours");
    ("Move-out Cleaning", "5-8 hours") ].

(** [turnarounds[category] || "2-4 hours"]; [None] stands for an inherited
    built-in, which is truthy and is returned as it is. *)
Definition getTurnaround (category : string) : option string :=
  match Js.get turnarounds category with
  | Js.Own t => Some (if String.eqb t EmptyString then "2-4 hours" else t)
  | Js.Inherited => None
  | Js.Undefined => Some "2-4 hours"
  end.

(** ** Strings, cookies and JSON values *)

(** [s.split(sep)] for a one-character separator. *)
Fixpoint split (sep : ascii) (s : string) : list string :=
  match s with
  | EmptyString => [EmptyString]
  | String c s' =>
      if Ascii.eqb c sep then EmptyString :: split sep s'
      else match split sep s' with
           | [] => [String c EmptyString]
           | seg :: segs => String c seg :: segs
           end
  end.

(** White space of [String.prototype.trim] in ASCII text: TAB, LF, VT,
    FF, CR and the space. *)
Definition isWhiteSpace (c : ascii) : bool :=
  let n := nat_of_ascii c in
  Nat.eqb n 32 || (Nat.leb 9 n && Nat.leb n 13).

Fixpoint trimStart (s : string) : string :=
  match s with
  | String c s' => if isWhiteSpace c then trimStart s' else s
  | EmptyString => EmptyString
  end.

Fixpoint trimEnd (s : string) : string :=
  match s with
  | EmptyString => EmptyString
  | String c s' =>
      match trimEnd s' with
      | EmptyString => if isWhiteSpace c then EmptyString else String c EmptyString
      | rest => String c rest
      end
  end.

Definition trim (s : string) : string := trimEnd (trimStart s).

Definition startsWith (s p : string) : bool := String.prefix p s.

(** A string as a condition: only the empty string is falsy. *)
Definition nonEmpty (s : string) : bool := negb (String.eqb s EmptyString).

(** A value that may be [null] or [undefined], as a condition. *)
Definition truthy (v : option string) : bool :=
  match v with Some s => nonEmpty s | None => false end.

(** [a || b] *)
Definition orElse (a b : option string) : option string :=
  if truthy a then a else b.

(** Parsed JSON. *)
Inductive Json : Type :=
| JNull
| JBool (b : bool)
| JNum (x : float)
| JStr (s : string)
| JArr (elements : list Json)
| JObj (properties : list (string * Json)).

Definition jsonTruthy (v : option Json) : bool :=
  match v with
  | None | Some JNull => false
  | Some (JBool b) => b
  | Some (JNum x) => negb (is_zero x || is_nan x)
  | Some (JStr s) => nonEmpty s
  | Some (JArr _) | Some (JObj _) => true
  end.

(** Thrown values.  The page throws [Error]s with a message; [ErrorOf v]
    is [new Error(v)] for a value that is not a string, whose message is
    [String(v)].  The others come from the runtime, with engine-specific
    messages. *)
Inductive Exn : Type :=
| Error (message : string)
| ErrorOf (v : Json)
| SyntaxError      (* JSON text that does not parse *)
| TypeError        (* property read on [null]; value that cannot be serialized *)
| ReferenceError   (* use of a global that does not exist *)
| QuotaExceededError (* [localStorage.setItem] on a value that cannot be stored *)
| FetchFailed.     (* [fetch] rejected: transport failure *)

(** [new Error(v)] for a parsed value. *)
Definition newError (v : Json) : Exn :=
  match v with
  | JStr message => Error message
  | _ => ErrorOf v
  end.

(** [v.name] for one of the names the page reads ([user_id], [id],
    [message], [data]): none of them is on a built-in prototype, so the
    read is [undefined] unless [v] is an object that owns the property.
    Reading from [null] throws. *)
Definition prop (v : Json) (name : string) : Exn + option Json :=
  match v with
  | JNull => inl TypeError
  | JObj properties => inr (Js.own properties name)
  | _ => inr None
  end.

(** The browser session, owned by collaborators of the page. *)
Record Browser : Type := {
  document_cookie : option string;            (* [None]: no [document] *)
  localStorage : option (gmap string string); (* [None]: no [window.localStorage] *)
}.

(** [localStorage.getItem(key)] *)
Definition getItem (storage : gmap string string) (key : string) : option string :=
  storage !! key.

Definition isAuthCookie (cookie : string) : bool :=
  startsWith (trim cookie) "auth_token=".

Definition getAuthToken (b : Browser) : option string :=
  let authCookie :=
    match document_cookie b with
    | Some jar => find isAuthCookie (split ";" jar)
    | None => None
    end in
  if truthy authCookie
  then authCookie ≫= (fun c => nth_error (split "=" c) 1)
  else
    match localStorage b with
    | Some storage => orElse (getItem storage "auth_token") (getItem storage "token")
    | None => None
    end.

Section Runtime.

(** [JSON.parse]: [None] when the text is not JSON. *)
Variable JSON_parse : string -> option Json.

(** [getUserData]: the parsed user and its id, or the thrown error.
    Everything thrown inside the [try] block, by [JSON.parse], by a read
    from [null] or by the explicit check, is replaced in the [catch]. *)
Definition getUserData (b : Browser) : Exn + (Json * Json) :=
  match localStorage b with
  | None => inl (Error "localStorage not available")
  | Some storage =>
      let userData := getItem storage "user_data" in
      if negb (truthy userData)
      then inl (Error "User not found. Please log in again.")
      else
        let attempt : Exn + (Json * Json) :=
          match userData ≫= JSON_parse with
          | None => inl SyntaxError
          | Some user =>
              match prop user "user_id" with
              | inl e => inl e
              | inr user_id =>
                  match (if jsonTruthy user_id then inr user_id
                         else prop user "id") with
                  | inl e => inl e
                  | inr userId =>
                      match userId with
                      | Some uid =>
                          if jsonTruthy userId then inr (user, uid)
                          else inl (Error "Invalid user data. Please log in again.")
                      | None => inl (Error "Invalid user data. Please log in again.")
                      end
                  end
              end
          end in
        match attempt with
        | inl _ => inl (Error "Invalid user data. Please log in again.")
        | inr r => inr r
        end
  end.

(** *** The booking request *)

Variable API_BASE_URL : string.
(** The payload parts handed over by the date/time step. *)
Variables CleaningArg BookingArg CustomerArg : Type.

(** [rd_customerInfo = None] is the parameter default [{}]. *)
Record RequestData : Type := {
  user_id : Json;
  rd_cleaningData : CleaningArg;
  rd_bookingDetails : BookingArg;
  rd_customerInfo : option CustomerArg;
}.

(** [JSON.stringify(requestData)]: [None] when it throws, as it does on
    a payload with a cycle or a BigInt. *)
Variable JSON_stringify : RequestData -> option string.

Record Request : Type := {
  url : string;
  method : string;
  headers : list (string * string);
  body : string;
}.

(** What [fetch] settles to.  [json] is the outcome of [response.json()]:
    [None] when the body is not JSON. *)
Record Response : Type := {
  status : N;
  json : option Json;
}.

Definition ok (r : Response) : bool :=
  (200 <=? status r)%N && (status r <=? 299)%N.

(** [None]: the promise is rejected. *)
Variable fetch : Request -> option Response.

(** The settled promise of [bookCleaningService] and the requests handed
    to [fetch].  The body is serialized while the arguments of the call
    are evaluated: when that throws, [fetch] is not called. *)
Definition bookCleaningService (b : Browser)
    (cleaningData : CleaningArg) (bookingDetails : BookingArg)
    (customerInfo : option CustomerArg)
  : (Exn + option Json) * list Request :=
  let authToken := getAuthToken b in
  if negb (truthy authToken)
  then (inl (Error "Authentication required. Please log in again."), [])
  else
    match getUserData b with
    | inl e => (inl e, [])
    | inr (_, userId) =>
        let requestData :=
          {| user_id := userId;
             rd_cleaningData := cleaningData;
             rd_bookingDetails := bookingDetails;
             rd_customerInfo := customerInfo |} in
        match JSON_stringify requestData with
        | None => (inl TypeError, [])
        | Some text =>
        let request :=
          {| url := API_BASE_URL +:+ "/api/v1/house-cleaning/create";
             method := "POST";
             headers :=
               [ ("Content-Type", "application/json");
                 ("Authorization", "Bearer " +:+ default EmptyString authToken) ];
             body := text |} in
        match fetch request with
        | None => (inl FetchFailed, [request])
        | Some response =>
            if negb (ok response)
            then
              match json response with
              | None => (inl SyntaxError, [request])
              | Some errorData =>
                  match prop errorData "message" with
                  | inl e => (inl e, [request])
                  | inr message =>
                      let fallback :=
                        "Booking failed: " +:+ decimal (status response) in
                      (inl (match message with
                            | Some m =>
                                if jsonTruthy message then newError m
                                else Error fallback
                            | None => Error fallback
                            end),
                       [request])
                  end
              end
            else
              match json response with
              | None => (inl SyntaxError, [request])
              | Some result =>
                  match prop result "data" with
                  | inl e => (inl e, [request])
                  | inr data => (inr data, [request])
                  end
              end
        end
        end
    end.

End Runtime.

(** ** Page state and the Continue button *)

Record SelectedOptions : Type := {
  so_category : string;
  so_package : string;
  so_homeSize : string;
  so_frequency : string;
  so_preferredTime : string;
  so_specialInstructions : string;
}.

Record CustomerInfoState : Type := {
  ci_phone : string;
  ci_address : string;
  ci_notes : string;
  ci_specialRequests : list string;
  ci_reminders_sms : bool;
  ci_reminders_email : bool;
}.

Record PageState : Type := {
  items : Js.Obj N;
  selectedOptions : SelectedOptions;
  customerInfo : CustomerInfoState;
  totalItems : N;
  pricing : Pricing;
  loading : bool;
  error : option string;          (* [None]: [null] *)
  isDateSelectorOpen : bool;
}.

Definition setTotalItems (v : N) (st : PageState) : PageState :=
  {| items := items st; selectedOptions := selectedOptions st;
     customerInfo := customerInfo st; totalItems := v;
     pricing := pricing st; loading := loading st; error := error st;
     isDateSelectorOpen := isDateSelectorOpen st |}.

Definition setPricing (v : Pricing) (st : PageState) : PageState :=
  {| items := items st; selectedOptions := selectedOptions st;
     customerInfo := customerInfo st; totalItems := totalItems st;
     pricing := v; loading := loading st; error := error st;
     isDateSelectorOpen := isDateSelectorOpen st |}.

Definition setError (v : option string) (st : PageState) : PageState :=
  {| items := items st; selectedOptions := selectedOptions st;
     customerInfo := customerInfo st; totalItems := totalItems st;
     pricing := pricing st; loading := loading st; error := v;
     isDateSelectorOpen := isDateSelectorOpen st |}.

Definition setIsDateSelectorOpen (v : bool) (st : PageState) : PageState :=
  {| items := items st; selectedOptions := selectedOptions st;
     customerInfo := customerInfo st; totalItems := totalItems st;
     pricing := pricing st; loading := loading st; error := error st;
     isDateSelectorOpen := v |}.

(** The two effects that run after [items] or [selectedOptions] change. *)
Definition totalItemsEffect (st : PageState) : PageState :=
  setTotalItems (sumValues (items st)) st.

Definition pricingEffect (st : PageState) : PageState :=
  let o := selectedOptions st in
  setPricing
    (calculateCleaningPrice (items st)
       (Some (optionsOf (so_category o) (so_package o)
                        (so_homeSize o) (so_frequency o))))
    st.

Definition runEffects (st : PageState) : PageState :=
  pricingEffect (totalItemsEffect st).

Record CleaningData : Type := {
  cd_category : string;
  cd_package : string;
  cd_items : Js.Obj N;
  cd_homeSize : string;
  cd_frequency : string;
  cd_estimatedPrice : float;
  cd_estimatedTime : string;
  cd_preferredTime : string;
  cd_specialInstructions : string;
  cd_turnaround : option string;
}.

Record BookingData : Type := {
  bk_items : Js.Obj N;
  bk_selectedOptions : SelectedOptions;
  bk_pricing : Pricing;
  bk_totalItems : N;
  bk_cleaningData : CleaningData;
  bk_backendItems : Js.Obj N;
  bk_customerInfo : CustomerInfoState;
}.

(** What a handler does to the world outside the component. *)
Inductive IO : Type :=
| StorageWrite (key value : string)
| NetworkCall (url : string).

Definition isNetworkCall (e : IO) : bool :=
  match e with NetworkCall _ => true | StorageWrite _ _ => false end.

Record Handled : Type := {
  h_state : PageState;
  h_browser : Browser;
  h_log : list IO;
  h_thrown : option Exn;
}.

Definition noRoomsMessage : string := "Please select at least one room to clean".

Section Page.

(** [JSON.stringify] on the booking context. *)
Variable JSON_stringify : BookingData -> string.
(** Whether [localStorage.setItem(key, value)] succeeds on this storage;
    it throws when the value cannot be stored. *)
Variable storable : gmap string string -> string -> string -> bool.

Definition handleContinue (st : PageState) (b : Browser) : Handled :=
  if (totalItems st =? 0)%N
  then {| h_state := setError (Some noRoomsMessage) st; h_browser := b;
          h_log := []; h_thrown := None |}
  else
    let st1 := setError None st in
    let backendItems := mapRoomsToBackend (items st) in
    let o := selectedOptions st in
    let cleaningData :=
      {| cd_category := so_category o;
         cd_package := so_package o;
         cd_items := backendItems;
         cd_homeSize := so_homeSize o;
         cd_frequency := so_frequency o;
         cd_estimatedPrice := finalPrice (pricing st);
         cd_estimatedTime := getEstimatedTime (totalItems st);
         cd_preferredTime := so_preferredTime o;
         cd_specialInstructions := so_specialInstructions o;
         cd_turnaround := getTurnaround (so_category o) |} in
    let bookingData :=
      {| bk_items := items st;
         bk_selectedOptions := o;
         bk_pricing := pricing st;
         bk_totalItems := totalItems st;
         bk_cleaningData := cleaningData;
         bk_backendItems := backendItems;
         bk_customerInfo := customerInfo st |} in
    match localStorage b with
    | None =>
        {| h_state := st1; h_browser := b; h_log := [];
           h_thrown := Some ReferenceError |}
    | Some storage =>
        let text := JSON_stringify bookingData in
        if storable storage "cleaningItems" text
        then
          {| h_state := setIsDateSelectorOpen true st1;
             h_browser :=
               {| document_cookie := document_cookie b;
                  localStorage := Some (<[ "cleaningItems" := text ]> storage) |};
             h_log := [StorageWrite "cleaningItems" text];
             h_thrown := None |}
        else
          {| h_state := st1; h_browser := b; h_log := [];
             h_thrown := Some QuotaExceededError |}
    end.

End Page.

(** ** The session and the request as the specification words them *)

(** A cookie named [auth_token] is present. *)
Definition hasAuthCookie (b : Browser) : bool :=
  match document_cookie b with
  | Some jar => existsb isAuthCookie (split ";" jar)
  | None => false
  end.

(** The value stored under a key of the local scratch storage. *)
Definition stored (b : Browser) (key : string) : option string :=
  localStorage b ≫= (fun storage => getItem storage key).

(** No bearer token is readable from the cookie or from the storage keys
    [auth_token] and [token]. *)
Definition noCredential (b : Browser) : Prop :=
  hasAuthCookie b = false
  /\ truthy (stored b "auth_token") = false
  /\ truthy (stored b "token") = false.

Definition identityField (user : Json) (name : string) : option Json :=
  match user with
  | JObj properties => Js.own properties name
  | _ => None
  end.

(** The identity blob holds neither a usable [user_id] nor a usable [id]. *)
Definition noUsableId (user : Json) : Prop :=
  jsonTruthy (identityField user "user_id") = false
  /\ jsonTruthy (identityField user "id") = false.

(** [POST {baseURL}/api/v1/house-cleaning/create] with the bearer header
    and, as body, the serialized
    [{user_id, cleaningData, bookingDetails, customerInfo}]. *)
Definition bookingRequest (baseURL token body : string) : Request :=
  {| url := baseURL +:+ "/api/v1/house-cleaning/create";
     method := "POST";
     headers := [ ("Content-Type", "application/json");
                  ("Authorization", "Bearer " +:+ token) ];
     body := body |}.

(** The largest count every sum, increment and decrement of the source
    is exact at: [Number.MAX_SAFE_INTEGER], 2^53 - 1. *)
Definition MAX_SAFE_INTEGER : N := 9007199254740991.

(** Every character of the text is ASCII. *)
Definition isAscii (s : string) : bool :=
  forallb (fun c => Nat.ltb (nat_of_ascii c) 128) (list_ascii_of_string s).

(** The cookie jar of the browser, if there is one, is ASCII text. *)
Definition asciiCookies (b : Browser) : bool :=
  match document_cookie b with
  | Some jar => isAscii jar
  | None => true
  end.

(** ** A reader for a fragment of JSON

    The pipeline is parametric in [JSON.parse].  This reader instantiates
    it on concrete sessions: it accepts [null], [true], [false], unsigned
    integers, strings without escapes, arrays and objects without repeated
    keys, and rejects every other text. *)
Module JsonText.

Definition quote : ascii := "034".
Definition backslash : ascii := "092".

Definition isSpace (c : ascii) : bool :=
  let n := nat_of_ascii c in
  Nat.eqb n 32 || Nat.eqb n 9 || Nat.eqb n 10 || Nat.eqb n 13.

Fixpoint skip (s : string) : string :=
  match s with
  | String c s' => if isSpace c then skip s' else s
  | EmptyString => EmptyString
  end.

(** The characters of a string literal, after its opening quote. *)
Fixpoint chars (s : string) : option (string * string) :=
  match s with
  | EmptyString => None
  | String c s' =>
      if Ascii.eqb c quote then Some (EmptyString, s')
      else if Ascii.eqb c backslash || Nat.ltb (nat_of_ascii c) 32 then None
      else match chars s' with
           | Some (t, rest) => Some (String c t, rest)
           | None => None
           end
  end.

Definition digit (c : ascii) : option N :=
  let n := N_of_ascii c in
  if (48 <=? n)%N && (n <=? 57)%N then Some (n - 48)%N else None.

Fixpoint digits (acc : N) (s : string) : N * string :=
  match s with
  | String c s' =>
      match digit c with
      | Some d => digits (acc * 10 + d)%N s'
      | None => (acc, s)
      end
  | EmptyString => (acc, s)
  end.

Definition keyword (word : string) (v : Json) (s : string)
  : option (Json * string) :=
  if String.prefix word s
  then Some (v, String.substring (String.length word)
                  (String.length s - String.length word) s)
  else None.

Fixpoint value (fuel : nat) (s : string) : option (Json * string) :=
  match fuel with
  | O => None
  | S fuel =>
      match skip s with
      | EmptyString => None
      | String c rest as s' =>
          if Ascii.eqb c quote then
            match chars rest with
            | Some (t, rest') => Some (JStr t, rest')
            | None => None
            end
          else if Ascii.eqb c "[" then
            match skip rest with
            | String "]" rest' => Some (JArr [], rest')
            | _ => match elements fuel rest with
                   | Some (vs, rest') => Some (JArr vs, rest')
                   | None => None
                   end
            end
          else if Ascii.eqb c "{" then
            match skip rest with
            | String "}" rest' => Some (JObj [], rest')
            | _ => match members fuel rest with
                   | Some (ms, rest') => Some (JObj ms, rest')
                   | None => None
                   end
            end
          else
            match digit c with
            | Some d =>
                match d, rest with
                | 0%N, String c' _ =>
                    match digit c' with
                    | Some _ => None
                    | None => Some (JNum 0, rest)
                    end
                | _, _ =>
                    let (n, rest') := digits d rest in
                    Some (JNum (Js.Number n), rest')
                end
            | None =>
                match keyword "null" JNull s' with
                | Some r => Some r
                | None =>
                    match keyword "true" (JBool true) s' with
                    | Some r => Some r
                    | None => keyword "false" (JBool false) s'
                    end
                end
            end
      end
  end
with elements (fuel : nat) (s : string) : option (list Json * string) :=
  match fuel with
  | O => None
  | S fuel =>
      match value fuel s with
      | Some (v, rest) =>
          match skip rest with
          | String "," rest' =>
              match elements fuel rest' with
              | Some (vs, rest'') => Some (v :: vs, rest'')
              | None => None
              end
          | String "]" rest' => Some ([v], rest')
          | _ => None
          end
      | None => None
      end
  end
with members (fuel : nat) (s : string)
  : option (list (string * Json) * string) :=
  match fuel with
  | O => None
  | S fuel =>
      match skip s with
      | String c rest =>
          if Ascii.eqb c quote then
            match chars rest with
            | Some (k, rest1) =>
                match skip rest1 with
                | String ":" rest2 =>
                    match value fuel rest2 with
                    | Some (v, rest3) =>
                        match skip rest3 with
                        | String "," rest4 =>
                            match members fuel rest4 with
                            | Some (ms, rest5) =>
                                if Js.hasOwnProperty ms k then None
                                else Some ((k, v) :: ms, rest5)
                            | None => None
                            end
                        | String "}" rest4 => Some ([(k, v)], rest4)
                        | _ => None
                        end
                    | None => None
                    end
                | _ => None
                end
            | None => None
            end
          else None
      | EmptyString => None
      end
  end.

Definition parse (text : string) : option Json :=
  match value (2 * String.length text + 2) text with
  | Some (v, rest) =>
      match skip rest with
      | EmptyString => Some v
      | _ => None
      end
  | None => None
  end.

(** A string literal in JSON text. *)
Definition lit (s : string) : string :=
  String quote (s +:+ String quote EmptyString).

End JsonText.

(** ** Concrete sessions and servers *)
Module Demo.

Definition baseURL : string := "http://localhost:3002".

(** Nobody is logged in. *)
Definition loggedOut : Browser :=
  {| document_cookie := Some "theme=dark; lang=en";
     localStorage := Some ∅ |}.

(** A token in the cookie, and the given text (if any) as identity blob. *)
Definition withIdentity (userData : option string) : Browser :=
  {| document_cookie := Some "theme=dark; auth_token=abc123";
     localStorage :=
       Some (match userData with
             | Some text => {[ "user_data" := text ]}
             | None => ∅
             end) |}.

(** [{"name":"Ada"}] *)
Definition anonymous : string :=
  "{" +:+ JsonText.lit "name" +:+ ":" +:+ JsonText.lit "Ada" +:+ "}".

(** [{"id":42}] *)
Definition user42 : string := "{" +:+ JsonText.lit "id" +:+ ":42}".

Definition loggedIn : Browser := withIdentity (Some user42).

(** A server that answers every request with the same response. *)
Definition server (status : N) (json : option Json)
  : Request -> option Response :=
  fun _ => Some {| status := status; json := json |}.

(** The body of every demo request: the payload is without content. *)
Definition serialize (_ : RequestData unit unit unit) : option string :=
  Some "{}".

Definition book (b : Browser) (fetch : Request -> option Response) :=
  bookCleaningService JsonText.parse baseURL unit unit unit serialize fetch
    b tt tt None.

Definition request : Request := bookingRequest baseURL "abc123" "{}".

Definition stringify (_ : BookingData) : string := "{}".

(** A storage without a quota, and one that is full. *)
Definition roomy (_ : gmap string string) (_ _ : string) : bool := true.
Definition full (_ : gmap string string) (_ _ : string) : bool := false.

Definition emptyState : PageState :=
  {| items := [("Living Room", 0%N); ("Terrace", 0%N); ("Bedroom", 0%N);
               ("Bathroom", 0%N); ("Kitchen", 0%N); ("Dining", 0%N);
               ("Garage", 0%N)];
     selectedOptions :=
       {| so_category := "Standard Cleaning";
          so_package := "Standard Package";
          so_homeSize := "small";
          so_frequency := "one-time";
          so_preferredTime := "10:00 AM - 12:00 PM";
          so_specialInstructions := EmptyString |};
     customerInfo :=
       {| ci_phone := EmptyString; ci_address := EmptyString;
          ci_notes := EmptyString; ci_specialRequests := [];
          ci_reminders_sms := false; ci_reminders_email := false |};
     totalItems := 0;
     pricing := zeroPricing;
     loading := false;
     error := None;
     isDateSelectorOpen := false |}.

(** Two bedrooms selected, after an earlier rejected attempt. *)
Definition twoBedrooms : PageState :=
  runEffects
    {| items := [("Living Room", 0%N); ("Terrace", 0%N); ("Bedroom", 2%N);
                 ("Bathroom", 0%N); ("Kitchen", 0%N); ("Dining", 0%N);
                 ("Garage", 0%N)];
       selectedOptions := selectedOptions emptyState;
       customerInfo := customerInfo emptyState;
       totalItems := 0;
       pricing := zeroPricing;
       loading := false;
       error := Some noRoomsMessage;
       isDateSelectorOpen := false |}.

End Demo.

(** Replacing one option field, and the defaults of the destructuring. *)
Definition withCategory (v : string) (o : CleaningPriceOptions) :=
  {| opt_category := Some v; opt_package := opt_package o;
     opt_homeSize := opt_homeSize o; opt_frequency := opt_frequency o |}.
Definition withPackage (v : string) (o : CleaningPriceOptions) :=
  {| opt_category := opt_category o; opt_package := Some v;
     opt_homeSize := opt_homeSize o; opt_frequency := opt_frequency o |}.
Definition withHomeSize (v : string) (o : CleaningPriceOptions) :=
  {| opt_category := opt_category o; opt_package := opt_package o;
     opt_homeSize := Some v; opt_frequency := opt_frequency o |}.
Definition withFrequency (v : string) (o : CleaningPriceOptions) :=
  {| opt_category := opt_category o; opt_package := opt_package o;
     opt_homeSize := opt_homeSize o; opt_frequency := Some v |}.

Definition defaultOptions : CleaningPriceOptions :=
  optionsOf "Standard Cleaning" "Standard Package" "small" "one-time".

(** ** Room counters, special requests *)

Definition setItems (v : Js.Obj N) (st : PageState) : PageState :=
  {| items := v; selectedOptions := selectedOptions st;
     customerInfo := customerInfo st; totalItems := totalItems st;
     pricing := pricing st; loading := loading st; error := error st;
     isDateSelectorOpen := isDateSelectorOpen st |}.

Definition setCustomerInfo (v : CustomerInfoState) (st : PageState) : PageState :=
  {| items := items st; selectedOptions := selectedOptions st;
     customerInfo := v; totalItems := totalItems st;
     pricing := pricing st; loading := loading st; error := error st;
     isDateSelectorOpen := isDateSelectorOpen st |}.

(** The state the component is first rendered with. *)
Definition initialState : PageState :=
  {| items := [("Living Room", 0%N); ("Terrace", 0%N); ("Bedroom", 0%N);
               ("Bathroom", 0%N); ("Kitchen", 0%N); ("Dining", 0%N);
               ("Garage", 0%N)];
     selectedOptions :=
       {| so_category := "Standard Cleaning";
          so_package := "Standard Package";
          so_homeSize := "small";
          so_frequency := "one-time";
          so_preferredTime := "10:00 AM - 12:00 PM";
          so_specialInstructions := EmptyString |};
     customerInfo :=
       {| ci_phone := EmptyString; ci_address := EmptyString;
          ci_notes := EmptyString; ci_specialRequests := [];
          ci_reminders_sms := false; ci_reminders_email := false |};
     totalItems := 0;
     pricing := {| finalPrice := 0; breakdown := None |};
     loading := false;
     error := None;
     isDateSelectorOpen := false |}.

(** [handleIncrement]: [{...prev, [item]: prev[item] + 1}].  For a key the
    object owns, the count is replaced in place.  For any other key
    [prev[item]] is not a number and what the source stores under the new
    key is not a count; the model has no state for it and answers [None].
    The page only calls the handler with keys of [items].  [count + 1] is
    the source's double sum for counts below [MAX_SAFE_INTEGER]. *)
Definition handleIncrement (item : string) (st : PageState) : option PageState :=
  match Js.own (items st) item with
  | Some count => Some (setItems (Js.set (items st) item (count + 1)%N) st)
  | None => None
  end.

(** [handleDecrement]: the guard [items[item] > 0] is false for a zero
    count, for a missing key and for an inherited built-in.  [count - 1]
    is the source's double difference for counts up to
    [MAX_SAFE_INTEGER]. *)
Definition handleDecrement (item : string) (st : PageState) : PageState :=
  match Js.get (items st) item with
  | Js.Own count =>
      if (0 <? count)%N
      then setItems (Js.set (items st) item (count - 1)%N) st
      else st
  | Js.Inherited => st
  | Js.Undefined => st
  end.

(** A click on one of the two buttons of a room, followed by the effects
    of the re-render. *)
Inductive Click : Type :=
| Plus (item : string)
| Minus (item : string).

Definition clickedItem (c : Click) : string :=
  match c with Plus item => item | Minus item => item end.

Definition click (st : PageState) (c : Click) : option PageState :=
  match c with
  | Plus item => runEffects <$> handleIncrement item st
  | Minus item => Some (runEffects (handleDecrement item st))
  end.

Fixpoint clicks (st : PageState) (cs : list Click) : option PageState :=
  match cs with
  | [] => Some st
  | c :: cs' =>
      match click st c with
      | Some st' => clicks st' cs'
      | None => None
      end
  end.

(** [handleSpecialRequestChange] *)
Definition handleSpecialRequestChange (requestId : string) (isChecked : bool)
    (st : PageState) : PageState :=
  let prev := customerInfo st in
  let currentRequests := ci_specialRequests prev in
  setCustomerInfo
    {| ci_phone := ci_phone prev;
       ci_address := ci_address prev;
       ci_notes := ci_notes prev;
       ci_specialRequests :=
         if isChecked then currentRequests ++ [requestId]
         else List.filter (fun id => negb (String.eqb id requestId))
                currentRequests;
       ci_reminders_sms := ci_reminders_sms prev;
       ci_reminders_email := ci_reminders_email prev |}
    st.

(** [specialRequests.includes(id)], the [checked] state of a box. *)
Definition includes (l : list string) (id : string) : bool :=
  existsb (String.eqb id) l.

(** ** Bookings dashboard *)

Record DashboardState : Type := {
  bookings : Json;
  d_loading : bool;
  d_error : option Exn;     (* [Some e]: the message of [e]; [None]: [null] *)
}.

Definition initialDashboard : DashboardState :=
  {| bookings := JArr []; d_loading := true; d_error := None |}.

Record GetRequest : Type := {
  g_url : string;
  g_headers : list (string * string);
}.

Record Fetched : Type := {
  f_state : DashboardState;
  f_pushed : list string;          (* [router.push] *)
  f_requests : list GetRequest;
}.

Section Dashboard.

Variable API_BASE_URL : string.
Variable fetch : GetRequest -> option Response.

(** [fetchBookings]; the [finally] block clears [loading] on every path. *)
Definition fetchBookings (st : DashboardState) (b : Browser) : Fetched :=
  let authToken := getAuthToken b in
  if negb (truthy authToken)
  then {| f_state := {| bookings := bookings st; d_loading := false;
                        d_error := d_error st |};
          f_pushed := ["/login"]; f_requests := [] |}
  else
    let request :=
      {| g_url := API_BASE_URL +:+ "/api/v1/bookings";
         g_headers :=
           [ ("Authorization", "Bearer " +:+ default EmptyString authToken) ] |} in
    let caught (e : Exn) :=
      {| f_state := {| bookings := bookings st; d_loading := false;
                       d_error := Some e |};
         f_pushed := []; f_requests := [request] |} in
    match fetch request with
    | None => caught FetchFailed
    | Some response =>
        if negb (ok response)
        then caught (Error "Failed to fetch bookings")
        else
          match json response with
          | None => caught SyntaxError
          | Some result =>
              match prop result "data" with
              | inl e => caught e
              | inr data =>
                  {| f_state :=
                       {| bookings :=
                            match data with
                            | Some d => if jsonTruthy data then d else JArr []
                            | None => JArr []
                            end;
                          d_loading := false;
                          d_error := d_error st |};
                     f_pushed := []; f_requests := [request] |}
              end
          end
    end.

End Dashboard.

(** ** Helpers for stating what the session readers return *)

(** The characters of [s] before the first [c]. *)
Fixpoint upTo (c : ascii) (s : string) : string :=
  match s with
  | EmptyString => EmptyString
  | String c' s' => if Ascii.eqb c' c then EmptyString else String c' (upTo c s')
  end.

(** The characters of [s] after the first [c]; [None] without a [c]. *)
Fixpoint after (c : ascii) (s : string) : option string :=
  match s with
  | EmptyString => None
  | String c' s' => if Ascii.eqb c' c then Some s' else after c s'
  end.

(** The id an identity blob yields: a truthy [user_id], else a truthy [id]. *)
Definition usableId (user : Json) : option Json :=
  if jsonTruthy (identityField user "user_id") then identityField user "user_id"
  else if jsonTruthy (identityField user "id") then identityField user "id"
  else None.

(** The three messages [getUserData] fails with. *)
Definition identityErrors : list Exn :=
  [ Error "localStorage not available";
    Error "User not found. Please log in again.";
    Error "Invalid user data. Please log in again." ].

(** The backend label a frontend label is stored under. *)
Definition backendLabel (label : string) : option string :=
  Js.own roomMapping label.

(** The option values a page state holds are taken from the four lists
    the page offers. *)
Definition offeredOptions (o : SelectedOptions) : Prop :=
  In (so_category o) Spec.categoryNames
  /\ In (so_package o) Spec.packageNames
  /\ In (so_homeSize o) Spec.homeSizeNames
  /\ In (so_frequency o) Spec.frequencyNames.

(** What the page keeps true between clicks. *)
Definition inSync (st : PageState) : Prop :=
  Js.keys (items st) = Spec.frontendLabels
  /\ selectedOptions st = selectedOptions initialState
  /\ totalItems st = sumValues (items st)
  /\ sumValues (mapRoomsToBackend (items st)) = totalItems st
  /\ pricing st
     = if (totalItems st =? 0)%N then {| finalPrice := 0; breakdown := None |}
       else Spec.computePrice Spec.StandardCleaning Spec.StandardPackage
              Spec.Small Spec.OneTime (Js.Number (totalItems st)).

(** * Properties of the pricing engine *)

(** Each display name of an enumeration reads its own table entry. *)
Lemma get_category (c : Spec.Category) :
  Js.get CLEANING_CATEGORIES (Spec.categoryName c)
  = Js.Own {| basePrice := Spec.categoryBase c;
              pricePerRoom := Spec.categoryPerRoom c |}.
Proof. destruct c; reflexivity. Qed.

Lemma get_package (p : Spec.Package) :
  Js.get CLEANING_PACKAGES (Spec.packageName p)
  = Js.Own {| multiplier := Spec.packageMultiplier p |}.
Proof. destruct p; reflexivity. Qed.

Lemma get_homeSize (s : Spec.HomeSize) :
  Js.get HOME_SIZES (Spec.homeSizeName s)
  = Js.Own {| multiplier := Spec.sizeMultiplier s |}.
Proof. destruct s; reflexivity. Qed.

Lemma get_frequency (f : Spec.Frequency) :
  Js.get FREQUENCIES (Spec.frequencyName f)
  = Js.Own {| discount := Spec.frequencyDiscount f |}.
Proof. destruct f; reflexivity. Qed.

(** The price computation once the four table entries are known. *)
Lemma calculateCleaningPrice_recognized (items : Js.Obj N)
    (c : Spec.Category) (p : Spec.Package) (s : Spec.HomeSize)
    (f : Spec.Frequency) :
  calculateCleaningPrice items (Some (Spec.options c p s f))
  = if (sumValues (mapRoomsToBackend items) =? 0)%N then zeroPricing
    else Spec.computePrice c p s f
           (Js.Number (sumValues (mapRoomsToBackend items))).
Proof.
  unfold calculateCleaningPrice, Spec.options, optionsOf.
  cbn [from_option id opt_category opt_package opt_homeSize opt_frequency].
  rewrite get_category, get_package, get_homeSize, get_frequency.
  cbn [Js.falsy orb].
  destruct (sumValues (mapRoomsToBackend items) =? 0)%N; reflexivity.
Qed.

(** C1. For a selection whose backend counts sum to [totalRooms > 0] (a
    safe integer, so that the sum of the doubles is that number) and
    recognized category, package, home size and frequency,
    [calculateCleaningPrice] returns the rounded product
    [(base + totalRooms * perRoom) * packageMultiplier * sizeMultiplier
     * (1 - frequencyDiscount)] as [finalPrice], and a breakdown that
    echoes the coefficients, the subtotal, [discount = subtotal -
    discountedPrice] and [total = finalPrice]. *)
Theorem calculateCleaningPrice_formula (items : Js.Obj N)
    (c : Spec.Category) (p : Spec.Package) (s : Spec.HomeSize)
    (f : Spec.Frequency) (totalRooms : N) :
  sumValues (mapRoomsToBackend items) = totalRooms ->
  (0 < totalRooms)%N ->
  (totalRooms <= MAX_SAFE_INTEGER)%N ->
  let n := Js.Number totalRooms in
  let subtotal :=
    ((Spec.categoryBase c + n * Spec.categoryPerRoom c)
     * Spec.packageMultiplier p * Spec.sizeMultiplier s)%float in
  let discountedPrice := (subtotal * (1 - Spec.frequencyDiscount f))%float in
  let final :=
    Js.Math_round
      ((Spec.categoryBase c + n * Spec.categoryPerRoom c)
       * Spec.packageMultiplier p * Spec.sizeMultiplier s
       * (1 - Spec.frequencyDiscount f))%float in
  calculateCleaningPrice items (Some (Spec.options c p s f))
  = {| finalPrice := final;
       breakdown := Some
         {| bd_basePrice := Some (Spec.categoryBase c);
            bd_roomCount := n;
            bd_pricePerRoom := Some (Spec.categoryPerRoom c);
            bd_packageMultiplier := Some (Spec.packageMultiplier p);
            bd_sizeMultiplier := Some (Spec.sizeMultiplier s);
            bd_frequencyDiscount := Some (Spec.frequencyDiscount f);
            bd_subtotal := subtotal;
            bd_discount := (subtotal - discountedPrice)%float;
            bd_total := final |} |}
  /\ calculateCleaningPrice items (Some (Spec.options c p s f))
     = Spec.computePrice c p s f n.
Proof.
  intros Htotal Hpos _ n subtotal discountedPrice final.
  rewrite calculateCleaningPrice_recognized, Htotal.
  destruct (N.eqb_spec totalRooms 0) as [->|_]; [lia|].
  split; reflexivity.
Qed.

Lemma calculateCleaningPrice_formula_witness :
  calculateCleaningPrice [("Kitchen", 1%N); ("Attic", 4%N)]
    (Some (Spec.options Spec.MoveInCleaning Spec.PremiumPackage
             Spec.Medium Spec.Monthly))
  = Spec.computePrice Spec.MoveInCleaning Spec.PremiumPackage
      Spec.Medium Spec.Monthly (Js.Number 1)
  /\ Spec.subtotal Spec.MoveInCleaning Spec.PremiumPackage Spec.Medium
       (Js.Number 1) = 47249.999999999993%float
  /\ Spec.discountedPrice Spec.MoveInCleaning Spec.PremiumPackage Spec.Medium
       Spec.Monthly (Js.Number 1) = 44887.499999999993%float
  /\ finalPrice (Spec.computePrice Spec.MoveInCleaning Spec.PremiumPackage
                   Spec.Medium Spec.Monthly (Js.Number 1)) = 44887%float.
Proof.
  split; [|split; [|split]].
  - apply (calculateCleaningPrice_formula [("Kitchen", 1%N); ("Attic", 4%N)]
             Spec.MoveInCleaning Spec.PremiumPackage Spec.Medium
             Spec.Monthly 1%N); [reflexivity|reflexivity|].
    vm_compute. discriminate.
  - vm_compute. reflexivity.
  - vm_compute. reflexivity.
  - vm_compute. reflexivity.
Defined.

(** C2. When the backend counts of the selection sum to zero, every valid
    combination of the four options yields the zero result:
    [finalPrice = 0] and the empty breakdown. *)
Theorem calculateCleaningPrice_no_rooms (items : Js.Obj N)
    (c : Spec.Category) (p : Spec.Package) (s : Spec.HomeSize)
    (f : Spec.Frequency) :
  sumValues (mapRoomsToBackend items) = 0%N ->
  calculateCleaningPrice items (Some (Spec.options c p s f))
  = {| finalPrice := 0; breakdown := None |}.
Proof.
  intros Hzero.
  rewrite calculateCleaningPrice_recognized, Hzero. reflexivity.
Qed.

Lemma calculateCleaningPrice_no_rooms_witness :
  calculateCleaningPrice [("Kitchen", 0%N); ("Attic", 3%N)]
    (Some (Spec.options Spec.MoveOutCleaning Spec.LuxuryPackage
             Spec.Large Spec.Weekly))
  = {| finalPrice := 0; breakdown := None |}.
Proof.
  apply (calculateCleaningPrice_no_rooms [("Kitchen", 0%N); ("Attic", 3%N)]
           Spec.MoveOutCleaning Spec.LuxuryPackage Spec.Large Spec.Weekly).
  reflexivity.
Defined.

(** C7. The worked example: Kitchen and Bathroom once each, Deep Cleaning,
    Premium Package, medium home, weekly.  The subtotal is
    [(15000 + 2*2000)*1.4*1.5 = 39900], the discounted price is
    [39900*0.85 = 33915] (so the discount shown is [5985]) and
    [finalPrice = 33915]; all of it exact in double precision. *)
Theorem calculateCleaningPrice_deep_premium_medium_weekly :
  calculateCleaningPrice [("Kitchen", 1%N); ("Bathroom", 1%N)]
    (Some (optionsOf "Deep Cleaning" "Premium Package" "medium" "weekly"))
  = {| finalPrice := 33915;
       breakdown := Some
         {| bd_basePrice := Some 15000%float;
            bd_roomCount := 2;
            bd_pricePerRoom := Some 2000%float;
            bd_packageMultiplier := Some 1.4%float;
            bd_sizeMultiplier := Some 1.5%float;
            bd_frequencyDiscount := Some 0.15%float;
            bd_subtotal := 39900;
            bd_discount := 5985;
            bd_total := 33915 |} |}
  /\ ((15000 + 2 * 2000) * 1.4 * 1.5 = 39900)%float
  /\ (39900 * (1 - 0.15) = 33915)%float
  /\ (39900 * 0.85 = 33915)%float
  /\ (39900 - 33915 = 5985)%float.
Proof. vm_compute. repeat split. Qed.

(** Double precision is part of the result: for one room, Move-in
    Cleaning, Premium Package, medium home, monthly, the exact product
    22500 * 1.4 * 1.5 * 0.95 is 44887.5, while the doubles multiply to a
    value just below it and the price is rounded down. *)
Example calculateCleaningPrice_rounds_the_double :
  finalPrice
    (calculateCleaningPrice [("Kitchen", 1%N)]
       (Some (optionsOf "Move-in Cleaning" "Premium Package" "medium" "monthly")))
  = 44887%float.
Proof. vm_compute. reflexivity. Qed.

(** ** Unrecognized option values *)

Lemma own_None_not_key {A} (o : Js.Obj A) (k : string) :
  ~ In k (Js.keys o) -> Js.own o k = None.
Proof.
  induction o as [|[k' v] o IH]; cbn; [reflexivity|].
  intros Hnot. destruct (String.eqb_spec k' k) as [->|_].
  - exfalso. apply Hnot. now left.
  - apply IH. intros Hin. apply Hnot. now right.
Qed.

Lemma own_Some_key {A} (o : Js.Obj A) (k : string) (v : A) :
  Js.own o k = Some v -> In k (Js.keys o).
Proof.
  induction o as [|[k' v'] o IH]; cbn; [discriminate|].
  destruct (String.eqb_spec k' k) as [->|_]; [now left|].
  intros H. right. now apply IH.
Qed.

(** A name that is neither in the table nor on the prototype reads as
    [undefined]. *)
Lemma get_Undefined {A} (o : Js.Obj A) (k : string) :
  ~ In k (Js.keys o) -> Js.inherited k = false -> Js.get o k = Js.Undefined.
Proof.
  intros Hnot Hproto. unfold Js.get.
  now rewrite (own_None_not_key o k Hnot), Hproto.
Qed.

(** The fallback the guard implements: as soon as one of the four values
    is outside its table and is not the name of a built-in property, the
    result is the zero pricing, whatever the selection. *)
Lemma calculateCleaningPrice_unknown_option (items : Js.Obj N)
    (category package homeSize frequency : string) :
  (Spec.unrecognized Spec.categoryNames category /\ Js.inherited category = false)
  \/ (Spec.unrecognized Spec.packageNames package /\ Js.inherited package = false)
  \/ (Spec.unrecognized Spec.homeSizeNames homeSize /\ Js.inherited homeSize = false)
  \/ (Spec.unrecognized Spec.frequencyNames frequency /\ Js.inherited frequency = false) ->
  calculateCleaningPrice items
    (Some (optionsOf category package homeSize frequency))
  = {| finalPrice := 0; breakdown := None |}.
Proof.
  unfold calculateCleaningPrice, optionsOf.
  cbn [from_option id opt_category opt_package opt_homeSize opt_frequency].
  intros [[H P]|[[H P]|[[H P]|[H P]]]].
  - rewrite (get_Undefined CLEANING_CATEGORIES category H P). reflexivity.
  - rewrite (get_Undefined CLEANING_PACKAGES package H P).
    cbn [Js.falsy]. now rewrite orb_true_r.
  - rewrite (get_Undefined HOME_SIZES homeSize H P).
    cbn [Js.falsy]. now rewrite orb_true_r.
  - rewrite (get_Undefined FREQUENCIES frequency H P).
    cbn [Js.falsy]. now rewrite orb_true_r.
Qed.

(** C8. The guard misses the names inherited from [Object.prototype].
    The category ["constructor"] is outside the enumeration, yet with one
    room selected the result is not the fallback: [finalPrice] is [NaN]
    and the breakdown is filled in, with [undefined] coefficients. *)
Theorem calculateCleaningPrice_inherited_name :
  Spec.unrecognized Spec.categoryNames "constructor"
  /\ calculateCleaningPrice [("Kitchen", 1%N)]
       (Some (optionsOf "constructor" "Standard Package" "small" "one-time"))
     = {| finalPrice := nan;
          breakdown := Some
            {| bd_basePrice := None;
               bd_roomCount := 1;
               bd_pricePerRoom := None;
               bd_packageMultiplier := Some 1%float;
               bd_sizeMultiplier := Some 1%float;
               bd_frequencyDiscount := Some 0%float;
               bd_subtotal := nan;
               bd_discount := nan;
               bd_total := nan |} |}
  /\ calculateCleaningPrice [("Kitchen", 1%N)]
       (Some (optionsOf "constructor" "Standard Package" "small" "one-time"))
     <> {| finalPrice := 0; breakdown := None |}.
Proof.
  split; [|split].
  - unfold Spec.unrecognized. cbn. intros H.
    repeat (destruct H as [H|H]; [discriminate H|]). exact H.
  - vm_compute. reflexivity.
  - vm_compute. intros H. discriminate H.
Qed.

(** ** Defaults of the options argument *)

(** C10. A missing options argument, or a missing [category], [package],
    [homeSize] or [frequency] field, behaves as "Standard Cleaning",
    "Standard Package", "small" and "one-time" supplied explicitly. *)
Theorem calculateCleaningPrice_defaults (items : Js.Obj N) :
  calculateCleaningPrice items None
  = calculateCleaningPrice items (Some defaultOptions)
  /\ calculateCleaningPrice items (Some noOptions)
     = calculateCleaningPrice items (Some defaultOptions)
  /\ forall o : CleaningPriceOptions,
       (opt_category o = None ->
        calculateCleaningPrice items (Some o)
        = calculateCleaningPrice items (Some (withCategory "Standard Cleaning" o)))
       /\ (opt_package o = None ->
           calculateCleaningPrice items (Some o)
           = calculateCleaningPrice items (Some (withPackage "Standard Package" o)))
       /\ (opt_homeSize o = None ->
           calculateCleaningPrice items (Some o)
           = calculateCleaningPrice items (Some (withHomeSize "small" o)))
       /\ (opt_frequency o = None ->
           calculateCleaningPrice items (Some o)
           = calculateCleaningPrice items (Some (withFrequency "one-time" o))).
Proof.
  split; [reflexivity|]. split; [reflexivity|].
  intros [c p s f]; cbn [opt_category opt_package opt_homeSize opt_frequency].
  repeat split; intros ->; reflexivity.
Qed.

(** * Room-label translation *)

Section ObjectLemmas.
Context {A : Type}.
Implicit Types (o : Js.Obj A) (k : string) (v : A).

Lemma own_Some_value o k v : Js.own o k = Some v -> In v (Js.values o).
Proof.
  induction o as [|[k' v'] o IH]; cbn; [discriminate|].
  destruct (String.eqb k' k).
  - intros [= ->]. now left.
  - intros H. right. now apply IH.
Qed.

(** Distinct values: the table is injective on its keys. *)
Lemma own_inj o k1 k2 v :
  NoDup (Js.values o) ->
  Js.own o k1 = Some v -> Js.own o k2 = Some v -> k1 = k2.
Proof.
  induction o as [|[k' v'] o IH]; cbn; [discriminate|].
  intros Hnd. inversion Hnd as [|? ? Hnotin Hnd']; subst.
  destruct (String.eqb_spec k' k1) as [E1|_], (String.eqb_spec k' k2) as [E2|_].
  - congruence.
  - intros [= ->] H2. apply own_Some_value in H2.
    exfalso. apply Hnotin. now apply list_elem_of_In.
  - intros H1 [= ->]. apply own_Some_value in H1.
    exfalso. apply Hnotin. now apply list_elem_of_In.
  - now apply IH.
Qed.

Lemma own_set o k k' v :
  Js.hasOwnProperty o k = true ->
  Js.own (Js.set o k v) k' = if String.eqb k k' then Some v else Js.own o k'.
Proof.
  unfold Js.hasOwnProperty.
  induction o as [|[k0 v0] o IH]; cbn; [discriminate|].
  destruct (String.eqb_spec k0 k) as [->|Hne]; cbn.
  - intros _. now destruct (String.eqb k k').
  - intros H. rewrite (IH H).
    destruct (String.eqb_spec k0 k') as [->|_]; [|reflexivity].
    destruct (String.eqb_spec k k') as [->|_]; [contradiction|reflexivity].
Qed.

Lemma hasOwnProperty_set o k k' v :
  Js.hasOwnProperty o k = true ->
  Js.hasOwnProperty (Js.set o k v) k' = Js.hasOwnProperty o k'.
Proof.
  intros H. unfold Js.hasOwnProperty in *. rewrite (own_set o k k' v H).
  destruct (String.eqb_spec k k') as [<-|_]; [|reflexivity].
  now destruct (Js.own o k).
Qed.

(** Writes to two different existing properties commute. *)
Lemma set_comm o k1 k2 v1 v2 :
  k1 <> k2 ->
  Js.hasOwnProperty o k1 = true -> Js.hasOwnProperty o k2 = true ->
  Js.set (Js.set o k1 v1) k2 v2 = Js.set (Js.set o k2 v2) k1 v1.
Proof.
  unfold Js.hasOwnProperty. intros Hne.
  induction o as [|[k0 v0] o IH]; cbn; [discriminate|].
  destruct (String.eqb_spec k0 k1) as [E1|Hne1],
           (String.eqb_spec k0 k2) as [E2|Hne2]; cbn.
  - congruence.
  - intros _ _. subst k0. rewrite String.eqb_refl.
    now destruct (String.eqb_spec k1 k2).
  - intros _ _. subst k0. rewrite String.eqb_refl.
    now destruct (String.eqb_spec k2 k1).
  - intros H1 H2.
    destruct (String.eqb_spec k0 k1), (String.eqb_spec k0 k2);
      try contradiction.
    f_equal. now apply IH.
Qed.

End ObjectLemmas.

Lemma fold_left_Nadd (l : list N) (a : N) :
  fold_left (fun sum count => (sum + count)%N) l a
  = (a + fold_left (fun sum count => (sum + count)%N) l 0)%N.
Proof.
  revert a. induction l as [|x l IH]; intros a; cbn.
  - lia.
  - rewrite (IH (a + x)%N), (IH (0 + x)%N). lia.
Qed.

Lemma sumValues_cons (k : string) (v : N) (o : Js.Obj N) :
  sumValues ((k, v) :: o) = (v + sumValues o)%N.
Proof. unfold sumValues. cbn. now rewrite fold_left_Nadd. Qed.

(** Overwriting a property moves the sum by the difference. *)
Lemma sumValues_set (o : Js.Obj N) (k : string) (v old : N) :
  Js.own o k = Some old ->
  (sumValues (Js.set o k v) + old = sumValues o + v)%N.
Proof.
  induction o as [|[k0 v0] o IH]; cbn [Js.set Js.own]; [discriminate|].
  destruct (String.eqb_spec k0 k) as [->|_].
  - intros [= ->]. rewrite !sumValues_cons. lia.
  - intros H. rewrite !sumValues_cons. specialize (IH H). lia.
Qed.

Lemma recognized_In (k : string) :
  Spec.recognized k = true <-> In k (Js.keys roomMapping).
Proof.
  unfold Spec.recognized. rewrite existsb_exists. split.
  - intros (x & Hin & Heq). apply String.eqb_eq in Heq. now subst.
  - intros Hin. exists k. split; [exact Hin|apply String.eqb_refl].
Qed.

(** A label outside the frontend set is dropped. *)
Lemma mapRoom_unrecognized (b : Js.Obj N) (k : string) (v : N) :
  Spec.recognized k = false -> mapRoom b (k, v) = b.
Proof.
  intros Hrec. unfold mapRoom, Js.get.
  rewrite own_None_not_key.
  - now destruct (Js.inherited k).
  - intros Hin. apply recognized_In in Hin. congruence.
Qed.

(** A recognized label writes its count under its backend label. *)
Lemma mapRoom_recognized (b : Js.Obj N) (k : string) (v : N) :
  Spec.recognized k = true ->
  exists bk, Js.own roomMapping k = Some bk
             /\ Js.own backendItems0 bk = Some 0%N
             /\ mapRoom b (k, v)
                = if Js.hasOwnProperty b bk then Js.set b bk v else b.
Proof.
  intros Hrec. apply recognized_In in Hrec. cbn in Hrec.
  unfold mapRoom, Js.get.
  repeat (destruct Hrec as [<-|Hrec];
          [eexists; split; [reflexivity|split; reflexivity]|]).
  contradiction.
Qed.

Lemma roomMapping_inj (k1 k2 bk : string) :
  Js.own roomMapping k1 = Some bk -> Js.own roomMapping k2 = Some bk -> k1 = k2.
Proof.
  apply own_inj. apply (bool_decide_unpack _). vm_compute. exact I.
Qed.

Lemma recognizedTotal_cons (k : string) (v : N) (items : Js.Obj N) :
  Spec.recognizedTotal ((k, v) :: items)
  = if Spec.recognized k then (v + Spec.recognizedTotal items)%N
    else Spec.recognizedTotal items.
Proof. reflexivity. Qed.

(** Folding the remaining entries into a backend object whose slots for
    those entries still hold the initial zero adds exactly the counts of
    the recognized entries. *)
Lemma fold_mapRoom_sum (items : Js.Obj N) :
  forall b : Js.Obj N,
    NoDup (Js.keys items) ->
    (forall k bk, In k (Js.keys items) ->
                  Js.own roomMapping k = Some bk -> Js.own b bk = Some 0%N) ->
    sumValues (fold_left mapRoom items b)
    = (sumValues b + Spec.recognizedTotal items)%N.
Proof.
  induction items as [|[k v] items IH]; intros b Hnd Hfresh.
  - cbn [fold_left Spec.recognizedTotal fold_right]. lia.
  - cbn [fold_left]. rewrite recognizedTotal_cons.
    cbn [Js.keys map fst] in Hnd, Hfresh.
    inversion Hnd as [|? ? Hnotin Hnd']; subst.
    destruct (Spec.recognized k) eqn:Hrec.
    + destruct (mapRoom_recognized b k v Hrec) as (bk & Hbk & _ & ->).
      assert (Hown : Js.own b bk = Some 0%N)
        by (apply (Hfresh k bk); [now left|exact Hbk]).
      assert (Hhas : Js.hasOwnProperty b bk = true)
        by (unfold Js.hasOwnProperty; now rewrite Hown).
      rewrite Hhas, IH; [|exact Hnd'|].
      * pose proof (sumValues_set b bk v 0%N Hown). lia.
      * intros k' bk' Hin Hbk'. rewrite (own_set b bk bk' v Hhas).
        destruct (String.eqb_spec bk bk') as [<-|_].
        -- exfalso. apply Hnotin. apply list_elem_of_In.
           now rewrite (roomMapping_inj k k' bk Hbk Hbk').
        -- apply (Hfresh k' bk'); [now right|exact Hbk'].
    + rewrite (mapRoom_unrecognized b k v Hrec).
      apply IH; [exact Hnd'|].
      intros k' bk' Hin. apply Hfresh. now right.
Qed.

(** The iterations for two different keys commute. *)
Lemma mapRoom_comm (b : Js.Obj N) (e1 e2 : string * N) :
  fst e1 <> fst e2 ->
  mapRoom (mapRoom b e1) e2 = mapRoom (mapRoom b e2) e1.
Proof.
  destruct e1 as [k1 v1], e2 as [k2 v2]. cbn [fst]. intros Hne.
  destruct (Spec.recognized k1) eqn:H1.
  2: { now rewrite !(mapRoom_unrecognized _ k1 v1 H1). }
  destruct (Spec.recognized k2) eqn:H2.
  2: { now rewrite !(mapRoom_unrecognized _ k2 v2 H2). }
  destruct (mapRoom_recognized b k1 v1 H1) as (bk1 & Hbk1 & _ & E1).
  destruct (mapRoom_recognized b k2 v2 H2) as (bk2 & Hbk2 & _ & E2).
  destruct (mapRoom_recognized (mapRoom b (k1, v1)) k2 v2 H2)
    as (bk2' & Hbk2' & _ & E12).
  destruct (mapRoom_recognized (mapRoom b (k2, v2)) k1 v1 H1)
    as (bk1' & Hbk1' & _ & E21).
  assert (bk2' = bk2) by congruence. assert (bk1' = bk1) by congruence.
  subst bk1' bk2'.
  assert (Hbne : bk1 <> bk2).
  { intros ->. apply Hne. exact (roomMapping_inj k1 k2 bk2 Hbk1 Hbk2). }
  rewrite E12, E21, E1, E2.
  destruct (Js.hasOwnProperty b bk1) eqn:Hh1,
           (Js.hasOwnProperty b bk2) eqn:Hh2; cbv iota;
    rewrite ?hasOwnProperty_set, ?Hh1, ?Hh2 by assumption;
    try reflexivity.
  now apply set_comm.
Qed.

(** Visiting the keys in another order builds the same object. *)
Lemma fold_mapRoom_permutation (items items' : Js.Obj N) :
  Permutation items items' ->
  NoDup (Js.keys items) ->
  forall b, fold_left mapRoom items b = fold_left mapRoom items' b.
Proof.
  induction 1 as [|x l l' Hperm IH|x y l|l l' l'' H1 IH1 H2 IH2];
    intros Hnd b.
  - reflexivity.
  - cbn. apply IH. now inversion Hnd.
  - cbn. f_equal. apply mapRoom_comm.
    cbn in Hnd. inversion Hnd as [|? ? Hnotin _]; subst.
    intros Heq. apply Hnotin. rewrite Heq. now left.
  - rewrite IH1 by exact Hnd. apply IH2.
    unfold Js.keys. now rewrite <- H1.
Qed.

(** C6. For a selection (an object: no key twice), the backend counts sum
    to the counts selected under the recognized frontend labels; an entry
    under any other key leaves the backend object as it is; and the
    translation does not depend on the order in which the keys are
    visited. *)
Theorem mapRoomsToBackend_sum (items : Js.Obj N) :
  NoDup (Js.keys items) ->
  sumValues (mapRoomsToBackend items) = Spec.recognizedTotal items
  /\ (forall b k v, Spec.recognized k = false -> mapRoom b (k, v) = b)
  /\ (forall items', Permutation items items' ->
                     mapRoomsToBackend items' = mapRoomsToBackend items).
Proof.
  intros Hnd. split; [|split].
  - unfold mapRoomsToBackend. rewrite fold_mapRoom_sum.
    + reflexivity.
    + exact Hnd.
    + intros k bk Hin Hbk.
      assert (Hrec : Spec.recognized k = true).
      { apply recognized_In. exact (own_Some_key roomMapping k bk Hbk). }
      destruct (mapRoom_recognized backendItems0 k 0%N Hrec) as (bk' & Hbk' & H0 & _).
      congruence.
  - exact mapRoom_unrecognized.
  - intros items' Hperm. unfold mapRoomsToBackend. symmetry.
    now apply fold_mapRoom_permutation.
Qed.

Lemma mapRoomsToBackend_sum_witness :
  sumValues (mapRoomsToBackend [("Kitchen", 1%N); ("Attic", 4%N); ("Bedroom", 2%N)])
  = 3%N
  /\ mapRoomsToBackend [("Bedroom", 2%N); ("Kitchen", 1%N); ("Attic", 4%N)]
     = mapRoomsToBackend [("Kitchen", 1%N); ("Attic", 4%N); ("Bedroom", 2%N)].
Proof.
  assert (Hnd : NoDup (Js.keys [("Kitchen", 1%N); ("Attic", 4%N); ("Bedroom", 2%N)]))
    by (apply (bool_decide_unpack _); vm_compute; exact I).
  destruct (mapRoomsToBackend_sum _ Hnd) as (Hsum & _ & Hperm).
  split.
  - exact Hsum.
  - apply Hperm. symmetry.
    exact (Permutation_cons_append [("Kitchen", 1%N); ("Attic", 4%N)] ("Bedroom", 2%N)).
Defined.

(** * Estimated duration *)

Lemma estimated_minutes (n : N) :
  ((60 + n * 30) / 60 = 1 + n / 2
   /\ (60 + n * 30) mod 60 = 30 * (n mod 2))%N.
Proof.
  pose proof (N.div_mod n 2 ltac:(lia)) as Hn.
  pose proof (N.mod_lt n 2 ltac:(lia)) as Hr.
  assert (H : (60 + n * 30 = 60 * (1 + n / 2) + 30 * (n mod 2))%N) by lia.
  split.
  - symmetry. apply (N.div_unique _ 60 _ (30 * (n mod 2))); [lia|exact H].
  - symmetry. apply (N.mod_unique _ 60 (1 + n / 2)); [lia|exact H].
Qed.

Lemma even_mod2 (n : N) : N.even n = (n mod 2 =? 0)%N.
Proof.
  rewrite <- N.bit0_mod, N.bit0_odd, <- N.negb_even.
  now destruct (N.even n).
Qed.

(** C9. The estimate is [60 + totalRooms * 30] minutes (a safe integer,
    so that the doubles of the source are these numbers), printed as the
    whole hours, ["h "], and the remaining minutes with ["m"]; the
    minutes part is left out, and the space kept, when no minutes remain.
    Every second room adds an hour, an odd room adds ["30m"]. *)
Theorem getEstimatedTime_format (totalRooms : N) :
  (60 + totalRooms * 30 <= MAX_SAFE_INTEGER)%N ->
  let totalMinutes := (60 + totalRooms * 30)%N in
  getEstimatedTime totalRooms
  = decimal (totalMinutes / 60) +:+ "h "
    +:+ (if (totalMinutes mod 60 =? 0)%N then EmptyString
         else decimal (totalMinutes mod 60) +:+ "m")
  /\ (N.even totalRooms = true ->
      getEstimatedTime totalRooms = decimal (1 + totalRooms / 2) +:+ "h ")
  /\ (N.even totalRooms = false ->
      getEstimatedTime totalRooms = decimal (1 + totalRooms / 2) +:+ "h 30m")
  /\ getEstimatedTime 0 = "1h "
  /\ getEstimatedTime 1 = "1h 30m"
  /\ getEstimatedTime 2 = "2h ".
Proof.
  intros _ totalMinutes. subst totalMinutes.
  destruct (estimated_minutes totalRooms) as [Hh Hm].
  pose proof (N.mod_lt totalRooms 2 ltac:(lia)) as Hr.
  unfold getEstimatedTime. cbv zeta. rewrite Hh, Hm.
  split; [|split; [|split; [|repeat split]]].
  - generalize dependent (totalRooms mod 2)%N. intros r _ Hr.
    destruct (N.ltb_spec 0 (30 * r)), (N.eqb_spec (30 * r) 0);
      try reflexivity; exfalso; lia.
  - rewrite even_mod2. intros He%N.eqb_eq. rewrite He. reflexivity.
  - rewrite even_mod2. intros He%N.eqb_neq.
    replace (totalRooms mod 2)%N with 1%N; [reflexivity|].
    generalize dependent (totalRooms mod 2)%N. intros r _ Hr He. lia.
Qed.

Lemma getEstimatedTime_format_witness :
  getEstimatedTime 25 = "13h 30m" /\ getEstimatedTime 8 = "5h ".
Proof.
  assert (Hsafe : forall n, (n <= 25)%N ->
                             (60 + n * 30 <= MAX_SAFE_INTEGER)%N)
    by (unfold MAX_SAFE_INTEGER; lia).
  split.
  - destruct (getEstimatedTime_format 25 (Hsafe 25%N ltac:(lia)))
      as (_ & _ & Hodd & _).
    apply Hodd. reflexivity.
  - destruct (getEstimatedTime_format 8 (Hsafe 8%N ltac:(lia)))
      as (_ & Heven & _).
    apply Heven. reflexivity.
Defined.

(** * Submission pipeline *)

(** ** Validation in the Continue handler *)

Lemma runEffects_totalItems (st : PageState) :
  totalItems (runEffects st) = sumValues (items st).
Proof. reflexivity. Qed.

(** C3. With a total of zero rooms the handler stops at validation: the
    error shown becomes the "select at least one room" message and nothing
    else happens, neither to the state nor to the browser, and nothing is
    sent.  With a positive total the error shown is cleared.  The handler
    never issues a network call. *)
Theorem handleContinue_validation (JSON_stringify : BookingData -> string)
    (storable : gmap string string -> string -> string -> bool)
    (st : PageState) (b : Browser) :
  (totalItems st = 0%N ->
   handleContinue JSON_stringify storable st b
   = {| h_state := setError (Some noRoomsMessage) st;
        h_browser := b; h_log := []; h_thrown := None |})
  /\ ((0 < totalItems st)%N ->
      error (h_state (handleContinue JSON_stringify storable st b)) = None)
  /\ (sumValues (items st) = 0%N ->
      error (h_state (handleContinue JSON_stringify storable (runEffects st) b))
      = Some noRoomsMessage
      /\ h_log (handleContinue JSON_stringify storable (runEffects st) b) = [])
  /\ filter isNetworkCall
       (h_log (handleContinue JSON_stringify storable st b)) = [].
Proof.
  unfold handleContinue. split; [|split; [|split]].
  - intros ->. reflexivity.
  - intros Hpos. destruct (N.eqb_spec (totalItems st) 0) as [E|_]; [lia|].
    destruct (localStorage b) as [storage|]; [|reflexivity].
    now destruct (storable storage _ _).
  - intros Hzero. rewrite runEffects_totalItems, Hzero. split; reflexivity.
  - destruct (totalItems st =? 0)%N; [reflexivity|].
    destruct (localStorage b) as [storage|]; [|reflexivity].
    now destruct (storable storage _ _).
Qed.

(** ** Credentials and identity *)

Lemma find_existsb_false {A} (p : A -> bool) (l : list A) :
  existsb p l = false -> find p l = None.
Proof.
  induction l as [|x l IH]; cbn; [reflexivity|].
  destruct (p x); [discriminate|exact IH].
Qed.

Lemma truthy_orElse (a b : option string) :
  truthy (orElse a b) = truthy a || truthy b.
Proof. unfold orElse. now destruct (truthy a) eqn:E; rewrite ?E. Qed.

Lemma getAuthToken_noCredential (b : Browser) :
  noCredential b -> truthy (getAuthToken b) = false.
Proof.
  unfold noCredential, hasAuthCookie, stored, getAuthToken.
  intros (Hcookie & Hauth & Htoken).
  assert (Hfind : match document_cookie b with
                  | Some jar => find isAuthCookie (split ";" jar)
                  | None => None
                  end = None).
  { destruct (document_cookie b); [now apply find_existsb_false|reflexivity]. }
  rewrite Hfind. cbn [truthy].
  destruct (localStorage b) as [storage|]; [|reflexivity].
  cbn in Hauth, Htoken. now rewrite truthy_orElse, Hauth, Htoken.
Qed.

Section Submission.

Variable JSON_parse : string -> option Json.
Variable API_BASE_URL : string.
Variables CD BD CI : Type.
Variable JSON_stringify : RequestData CD BD CI -> option string.
Variable fetch : Request -> option Response.

Local Abbreviation book :=
  (bookCleaningService JSON_parse API_BASE_URL CD BD CI JSON_stringify fetch).

Lemma getUserData_absent (b : Browser) (storage : gmap string string) :
  localStorage b = Some storage ->
  truthy (getItem storage "user_data") = false ->
  getUserData JSON_parse b = inl (Error "User not found. Please log in again.").
Proof. unfold getUserData. now intros -> ->. Qed.

Lemma getUserData_invalid (b : Browser) (storage : gmap string string)
    (text : string) :
  localStorage b = Some storage ->
  getItem storage "user_data" = Some text ->
  nonEmpty text = true ->
  JSON_parse text = None
  \/ (exists user, JSON_parse text = Some user /\ noUsableId user) ->
  getUserData JSON_parse b
  = inl (Error "Invalid user data. Please log in again.").
Proof.
  unfold getUserData. intros -> -> Hne Hcases.
  cbn [truthy mbind option_bind]. rewrite Hne. cbn [negb].
  destruct Hcases as [->|(user & -> & Hid1 & Hid2)]; [reflexivity|].
  destruct user as [|x|x|x|x|properties];
    cbn [prop identityField] in *; try reflexivity;
    try (rewrite Hid1; cbn; reflexivity).
  rewrite Hid1. destruct (Js.own properties "id") as [uid|]; [|reflexivity].
  now rewrite Hid2.
Qed.

(** C4. For a browser whose cookie jar is ASCII text: without a
    readable credential the call fails with the
    "Authentication required" error and sends nothing.  With a credential,
    an absent identity blob fails with "User not found", and a blob that
    is not JSON or holds no usable [user_id] or [id] fails with "Invalid
    user data"; both messages differ from the first, and again nothing is
    sent. *)
Theorem bookCleaningService_auth (b : Browser)
    (cleaningData : CD) (bookingDetails : BD) (customerInfo : option CI) :
  asciiCookies b = true ->
  (noCredential b ->
   book b cleaningData bookingDetails customerInfo
   = (inl (Error "Authentication required. Please log in again."), []))
  /\ (truthy (getAuthToken b) = true ->
      forall storage, localStorage b = Some storage ->
        (truthy (getItem storage "user_data") = false ->
         book b cleaningData bookingDetails customerInfo
         = (inl (Error "User not found. Please log in again."), []))
        /\ (forall text,
              getItem storage "user_data" = Some text ->
              nonEmpty text = true ->
              JSON_parse text = None
              \/ (exists user, JSON_parse text = Some user /\ noUsableId user) ->
              book b cleaningData bookingDetails customerInfo
              = (inl (Error "Invalid user data. Please log in again."), [])))
  /\ "User not found. Please log in again."
     <> "Authentication required. Please log in again."
  /\ "Invalid user data. Please log in again."
     <> "Authentication required. Please log in again.".
Proof.
  intros _. unfold bookCleaningService.
  split; [|split; [|split; discriminate]].
  - intros Hnone. now rewrite (getAuthToken_noCredential b Hnone).
  - intros Htoken storage Hstorage. rewrite Htoken. cbn [negb]. split.
    + intros Habsent. now rewrite (getUserData_absent b storage Hstorage Habsent).
    + intros text Htext Hne Hcases.
      now rewrite (getUserData_invalid b storage text Hstorage Htext Hne Hcases).
Qed.

(** ** The response *)

Lemma ok_2xx (response : Response) :
  ok response = true <-> (200 <= status response <= 299)%N.
Proof.
  unfold ok. rewrite andb_true_iff, !N.leb_le. reflexivity.
Qed.

(** Once a credential and an identity are found, exactly one request is
    sent, and the settled response decides the outcome. *)
Lemma bookCleaningService_sends (b : Browser)
    (cleaningData : CD) (bookingDetails : BD) (customerInfo : option CI)
    (token : string) (user userId : Json) :
  getAuthToken b = Some token ->
  nonEmpty token = true ->
  getUserData JSON_parse b = inr (user, userId) ->
  book b cleaningData bookingDetails customerInfo
  = match JSON_stringify {| user_id := userId;
                            rd_cleaningData := cleaningData;
                            rd_bookingDetails := bookingDetails;
                            rd_customerInfo := customerInfo |} with
    | None => (inl TypeError, [])
    | Some text =>
    let request := bookingRequest API_BASE_URL token text in
    match fetch request with
    | None => (inl FetchFailed, [request])
    | Some response =>
        if negb (ok response) then
          match json response with
          | None => (inl SyntaxError, [request])
          | Some errorData =>
              match prop errorData "message" with
              | inl e => (inl e, [request])
              | inr message =>
                  (inl (match message with
                        | Some m =>
                            if jsonTruthy message then newError m
                            else Error ("Booking failed: "
                                        +:+ decimal (status response))
                        | None =>
                            Error ("Booking failed: "
                                   +:+ decimal (status response))
                        end),
                   [request])
              end
          end
        else
          match json response with
          | None => (inl SyntaxError, [request])
          | Some result =>
              match prop result "data" with
              | inl e => (inl e, [request])
              | inr data => (inr data, [request])
              end
          end
    end
    end.
Proof.
  intros Htoken Hne Huser.
  unfold bookCleaningService, bookingRequest.
  rewrite Htoken, Huser. cbn [truthy from_option id]. rewrite Hne. cbn [negb].
  reflexivity.
Qed.

(** C5, as the code has it.  For a submission that reaches the POST: a
    response outside 200..299 whose body is JSON with a truthy [message]
    fails with that message ([new Error] of it: the text itself when it
    is a string); one whose body is JSON (other than [null]) with no
    [message], or a falsy one, fails with ["Booking failed: <status>"]; a
    response in 200..299 whose body is JSON (other than [null]) resolves
    to the body's [data] field, untouched.  In each case the one request
    sent is the POST to the creation endpoint. *)
Theorem bookCleaningService_response (b : Browser)
    (cleaningData : CD) (bookingDetails : BD) (customerInfo : option CI)
    (token : string) (user userId : Json) (text : string)
    (response : Response) :
  getAuthToken b = Some token ->
  nonEmpty token = true ->
  getUserData JSON_parse b = inr (user, userId) ->
  JSON_stringify {| user_id := userId;
                    rd_cleaningData := cleaningData;
                    rd_bookingDetails := bookingDetails;
                    rd_customerInfo := customerInfo |} = Some text ->
  let request := bookingRequest API_BASE_URL token text in
  fetch request = Some response ->
  (~ (200 <= status response <= 299)%N ->
   forall errorData, json response = Some errorData ->
     (forall m, prop errorData "message" = inr (Some m) ->
                jsonTruthy (Some m) = true ->
                book b cleaningData bookingDetails customerInfo
                = (inl (newError m), [request]))
     /\ (forall m, prop errorData "message" = inr (Some (JStr m)) ->
                   nonEmpty m = true ->
                   book b cleaningData bookingDetails customerInfo
                   = (inl (Error m), [request]))
     /\ (forall message, prop errorData "message" = inr message ->
                         jsonTruthy message = false ->
                         book b cleaningData bookingDetails customerInfo
                         = (inl (Error ("Booking failed: "
                                        +:+ decimal (status response))),
                            [request])))
  /\ ((200 <= status response <= 299)%N ->
      forall result data, json response = Some result ->
        prop result "data" = inr data ->
        book b cleaningData bookingDetails customerInfo
        = (inr data, [request])).
Proof.
  intros Htoken Hne Huser Htext request Hfetch.
  rewrite (bookCleaningService_sends b cleaningData bookingDetails customerInfo
             token user userId Htoken Hne Huser).
  rewrite Htext. cbv zeta. fold request. rewrite Hfetch. split.
  - intros Hstatus errorData Hjson.
    destruct (ok response) eqn:Hok; [now apply ok_2xx in Hok|].
    cbn [negb]. rewrite Hjson. split; [|split].
    + intros m -> Hm. now rewrite Hm.
    + intros m -> Hm. cbn [jsonTruthy newError]. now rewrite Hm.
    + intros message -> Hfalsy. rewrite Hfalsy. now destruct message.
  - intros Hstatus%ok_2xx result data Hjson Hdata.
    now rewrite Hstatus, Hjson, Hdata.
Qed.

End Submission.

Lemma handleContinue_validation_witness :
  handleContinue Demo.stringify Demo.roomy Demo.emptyState Demo.loggedIn
  = {| h_state := setError (Some noRoomsMessage) Demo.emptyState;
       h_browser := Demo.loggedIn; h_log := []; h_thrown := None |}
  /\ error (h_state (handleContinue Demo.stringify Demo.roomy
                       Demo.twoBedrooms Demo.loggedIn))
     = None.
Proof.
  split.
  - apply (handleContinue_validation Demo.stringify Demo.roomy
             Demo.emptyState Demo.loggedIn).
    reflexivity.
  - apply (handleContinue_validation Demo.stringify Demo.roomy
             Demo.twoBedrooms Demo.loggedIn).
    reflexivity.
Defined.

Lemma bookCleaningService_auth_witness :
  Demo.book Demo.loggedOut (Demo.server 201 None)
  = (inl (Error "Authentication required. Please log in again."), [])
  /\ Demo.book (Demo.withIdentity None) (Demo.server 201 None)
     = (inl (Error "User not found. Please log in again."), [])
  /\ Demo.book (Demo.withIdentity (Some "{oops")) (Demo.server 201 None)
     = (inl (Error "Invalid user data. Please log in again."), [])
  /\ Demo.book (Demo.withIdentity (Some Demo.anonymous)) (Demo.server 201 None)
     = (inl (Error "Invalid user data. Please log in again."), []).
Proof.
  pose (auth := fun b =>
    bookCleaningService_auth JsonText.parse Demo.baseURL unit unit unit
      Demo.serialize (Demo.server 201 None) b tt tt None).
  split; [|split; [|split]].
  - apply (auth Demo.loggedOut eq_refl). vm_compute. repeat split.
  - destruct (auth (Demo.withIdentity None) eq_refl) as (_ & Hid & _).
    apply (Hid eq_refl ∅ eq_refl). reflexivity.
  - destruct (auth (Demo.withIdentity (Some "{oops")) eq_refl) as (_ & Hid & _).
    destruct (Hid eq_refl {[ "user_data" := "{oops" ]} eq_refl) as [_ Hinv].
    apply (Hinv "{oops").
    + reflexivity.
    + reflexivity.
    + left. reflexivity.
  - destruct (auth (Demo.withIdentity (Some Demo.anonymous)) eq_refl)
      as (_ & Hid & _).
    destruct (Hid eq_refl {[ "user_data" := Demo.anonymous ]} eq_refl)
      as [_ Hinv].
    apply (Hinv Demo.anonymous).
    + reflexivity.
    + reflexivity.
    + right. exists (JObj [("name", JStr "Ada")]). repeat split.
Defined.

(** A body that is not JSON, or is the JSON [null], is outside both
    halves of C5 as worded: a 500 response with a body that is not JSON
    rejects with the parse failure of [response.json()], not with a
    status-derived message, and a 204 response with such a body does not
    resolve at all; with the body [null], the read of [message] or of
    [data] throws. *)
Lemma bookCleaningService_unparseable_body :
  ~ (200 <= 500 <= 299)%N
  /\ Demo.book Demo.loggedIn (Demo.server 500 None)
     = (inl SyntaxError, [Demo.request])
  /\ fst (Demo.book Demo.loggedIn (Demo.server 500 None))
     <> inl (Error "Booking failed: 500")
  /\ (200 <= 204 <= 299)%N
  /\ Demo.book Demo.loggedIn (Demo.server 204 None)
     = (inl SyntaxError, [Demo.request])
  /\ Demo.book Demo.loggedIn (Demo.server 500 (Some JNull))
     = (inl TypeError, [Demo.request])
  /\ Demo.book Demo.loggedIn (Demo.server 204 (Some JNull))
     = (inl TypeError, [Demo.request]).
Proof.
  split; [lia|]. split; [|split; [|split; [lia|split; [|split]]]].
  - vm_compute. reflexivity.
  - vm_compute. discriminate.
  - vm_compute. reflexivity.
  - vm_compute. reflexivity.
  - vm_compute. reflexivity.
Qed.

Lemma bookCleaningService_response_witness :
  Demo.book Demo.loggedIn
    (Demo.server 500 (Some (JObj [("message", JStr "server down")])))
  = (inl (Error "server down"), [Demo.request])
  /\ Demo.book Demo.loggedIn
       (Demo.server 500 (Some (JObj [("message", JNum 7)])))
     = (inl (ErrorOf (JNum 7)), [Demo.request])
  /\ Demo.book Demo.loggedIn (Demo.server 404 (Some (JObj [])))
     = (inl (Error "Booking failed: 404"), [Demo.request])
  /\ Demo.book Demo.loggedIn
       (Demo.server 201 (Some (JObj [("data", JObj [("id", JStr "b1")])])))
     = (inr (Some (JObj [("id", JStr "b1")])), [Demo.request]).
Proof.
  pose (resp := fun status json =>
    bookCleaningService_response JsonText.parse Demo.baseURL unit unit unit
      Demo.serialize (Demo.server status json) Demo.loggedIn tt tt None
      "abc123" (JObj [("id", JNum 42)]) (JNum 42) "{}"
      {| status := status; json := json |}
      eq_refl eq_refl eq_refl eq_refl eq_refl).
  split; [|split; [|split]].
  - destruct (resp 500%N (Some (JObj [("message", JStr "server down")])))
      as [Herr _].
    destruct (Herr ltac:(cbn; lia) _ eq_refl) as (_ & Hstr & _).
    apply Hstr; reflexivity.
  - destruct (resp 500%N (Some (JObj [("message", JNum 7)]))) as [Herr _].
    destruct (Herr ltac:(cbn; lia) _ eq_refl) as (Hany & _).
    exact (Hany (JNum 7) eq_refl eq_refl).
  - destruct (resp 404%N (Some (JObj []))) as [Herr _].
    destruct (Herr ltac:(cbn; lia) _ eq_refl) as (_ & _ & Hnone).
    exact (Hnone None eq_refl eq_refl).
  - destruct (resp 201%N (Some (JObj [("data", JObj [("id", JStr "b1")])])))
      as [_ Hok].
    apply (Hok ltac:(cbn; lia) _ _ eq_refl). reflexivity.
Defined.

Lemma calculateCleaningPrice_defaults_witness :
  calculateCleaningPrice [("Bedroom", 2%N)]
    (Some {| opt_category := None; opt_package := Some "Luxury Package";
             opt_homeSize := Some "large"; opt_frequency := None |})
  = calculateCleaningPrice [("Bedroom", 2%N)]
      (Some {| opt_category := Some "Standard Cleaning";
               opt_package := Some "Luxury Package";
               opt_homeSize := Some "large"; opt_frequency := None |}).
Proof.
  destruct (calculateCleaningPrice_defaults [("Bedroom", 2%N)]) as (_ & _ & H).
  apply (H {| opt_category := None; opt_package := Some "Luxury Package";
              opt_homeSize := Some "large"; opt_frequency := None |}).
  reflexivity.
Defined.

(** * Further properties of the room-label translation *)

Lemma keys_set {A} (o : Js.Obj A) (k : string) (v : A) :
  Js.hasOwnProperty o k = true -> Js.keys (Js.set o k v) = Js.keys o.
Proof.
  unfold Js.hasOwnProperty.
  induction o as [|[k0 v0] o IH]; cbn; [discriminate|].
  destruct (String.eqb k0 k); cbn; [reflexivity|].
  intros H. f_equal. exact (IH H).
Qed.

Lemma hasOwnProperty_keys {A} (o : Js.Obj A) (k : string) :
  In k (Js.keys o) -> Js.hasOwnProperty o k = true.
Proof.
  unfold Js.hasOwnProperty. intros Hin.
  destruct (Js.own o k) eqn:E; [reflexivity|].
  induction o as [|[k0 v0] o IH]; cbn in *; [contradiction|].
  destruct (String.eqb_spec k0 k) as [->|Hne]; [discriminate|].
  destruct Hin as [->|Hin]; [contradiction|]. now apply IH.
Qed.

(** One iteration either leaves the backend object alone or overwrites
    the slot of one backend label of the table. *)
Lemma mapRoom_cases (b : Js.Obj N) (k : string) (v : N) :
  mapRoom b (k, v) = b
  \/ exists bk, Js.own roomMapping k = Some bk
                /\ Js.hasOwnProperty b bk = true
                /\ mapRoom b (k, v) = Js.set b bk v.
Proof.
  destruct (Spec.recognized k) eqn:Hrec.
  - destruct (mapRoom_recognized b k v Hrec) as (bk & Hbk & _ & ->).
    destruct (Js.hasOwnProperty b bk) eqn:Hhas; [|now left].
    right. now exists bk.
  - left. now apply mapRoom_unrecognized.
Qed.

Lemma mapRoom_keys (b : Js.Obj N) (e : string * N) :
  Js.keys (mapRoom b e) = Js.keys b.
Proof.
  destruct e as [k v].
  destruct (mapRoom_cases b k v) as [->|(bk & _ & Hhas & ->)];
    [reflexivity|now apply keys_set].
Qed.

Lemma fold_mapRoom_keys (items : Js.Obj N) (b : Js.Obj N) :
  Js.keys (fold_left mapRoom items b) = Js.keys b.
Proof.
  revert b. induction items as [|e items IH]; intros b; cbn [fold_left].
  - reflexivity.
  - now rewrite IH, mapRoom_keys.
Qed.

(** A slot that is no image of the table is never written. *)
Lemma fold_mapRoom_untouched (items : Js.Obj N) (b : Js.Obj N) (label : string) :
  ~ In label (Js.values roomMapping) ->
  Js.own (fold_left mapRoom items b) label = Js.own b label.
Proof.
  intros Hnot. revert b.
  induction items as [|[k v] items IH]; intros b; cbn [fold_left];
    [reflexivity|].
  rewrite IH.
  destruct (mapRoom_cases b k v) as [->|(bk & Hbk & Hhas & ->)];
    [reflexivity|].
  rewrite (own_set b bk label v Hhas).
  destruct (String.eqb_spec bk label) as [<-|_]; [|reflexivity].
  exfalso. apply Hnot. exact (own_Some_value roomMapping k bk Hbk).
Qed.

(** X1. Whatever the input, even one that lists a key twice, the result
    has exactly the eight backend labels, in the order of the literal, and
    the "Study/Office" count, which no frontend label maps to, is 0. *)
Theorem mapRoomsToBackend_shape (items : Js.Obj N) :
  Js.keys (mapRoomsToBackend items)
  = [ "Living Room"; "Bedrooms"; "Bathrooms"; "Kitchen"; "Dining Room";
      "Terrace/Balcony"; "Garage"; "Study/Office" ]
  /\ Js.own (mapRoomsToBackend items) "Study/Office" = Some 0%N.
Proof.
  unfold mapRoomsToBackend. split.
  - now rewrite fold_mapRoom_keys.
  - rewrite fold_mapRoom_untouched; [reflexivity|].
    cbn. intros H.
    repeat (destruct H as [H|H]; [discriminate H|]). exact H.
Qed.

Lemma fold_mapRoom_lookup (items : Js.Obj N) :
  forall (b : Js.Obj N) (k bk : string),
    NoDup (Js.keys items) ->
    Js.keys b = Js.keys backendItems0 ->
    Js.own roomMapping k = Some bk ->
    Js.own (fold_left mapRoom items b) bk
    = match Js.own items k with
      | Some v => Some v
      | None => Js.own b bk
      end.
Proof.
  induction items as [|[k0 v0] items IH]; intros b k bk Hnd Hkeys Hbk;
    [reflexivity|].
  cbn [fold_left Js.own]. cbn [Js.keys map fst] in Hnd.
  inversion Hnd as [|? ? Hnotin Hnd']; subst.
  rewrite (IH (mapRoom b (k0, v0)) k bk Hnd'
             ltac:(now rewrite mapRoom_keys) Hbk).
  assert (Hhas : Js.hasOwnProperty b bk = true).
  { apply hasOwnProperty_keys. rewrite Hkeys.
    assert (Hrec : Spec.recognized k = true)
      by (apply recognized_In; exact (own_Some_key roomMapping k bk Hbk)).
    destruct (mapRoom_recognized backendItems0 k 0%N Hrec) as (bk' & Hbk' & H0 & _).
    assert (bk' = bk) by congruence. subst bk'.
    exact (own_Some_key backendItems0 bk 0%N H0). }
  destruct (String.eqb_spec k0 k) as [->|Hne].
  - rewrite own_None_not_key
      by (intros Hin; apply Hnotin; now apply list_elem_of_In).
    destruct (mapRoom_cases b k v0) as [E|(bk' & Hbk' & _ & ->)].
    + (* the write cannot be skipped: the slot exists *)
      assert (Hrec : Spec.recognized k = true)
        by (apply recognized_In; exact (own_Some_key roomMapping k bk Hbk)).
      destruct (mapRoom_recognized b k v0 Hrec) as (bk' & Hbk' & _ & E').
      assert (bk' = bk) by congruence. subst bk'.
      rewrite E', Hhas. rewrite (own_set b bk bk v0 Hhas).
      now rewrite String.eqb_refl.
    + assert (bk' = bk) by congruence. subst bk'.
      rewrite (own_set b bk bk v0 Hhas). now rewrite String.eqb_refl.
  - destruct (Js.own items k) as [v|]; [reflexivity|].
    destruct (mapRoom_cases b k0 v0) as [->|(bk0 & Hbk0 & Hhas0 & ->)];
      [reflexivity|].
    rewrite (own_set b bk0 bk v0 Hhas0).
    destruct (String.eqb_spec bk0 bk) as [->|_]; [|reflexivity].
    exfalso. apply Hne. exact (roomMapping_inj k0 k bk Hbk0 Hbk).
Qed.

(** X2. For a selection (no key twice), each frontend label's count is
    found under its backend label, and a label the selection does not
    mention reads 0. *)
Theorem mapRoomsToBackend_lookup (items : Js.Obj N) (label backend : string) :
  NoDup (Js.keys items) ->
  backendLabel label = Some backend ->
  Js.own (mapRoomsToBackend items) backend
  = Some (default 0%N (Js.own items label)).
Proof.
  intros Hnd Hbk. unfold mapRoomsToBackend, backendLabel in *.
  rewrite (fold_mapRoom_lookup items backendItems0 label backend Hnd eq_refl Hbk).
  destruct (Js.own items label) as [v|]; [reflexivity|].
  assert (Hrec : Spec.recognized label = true)
    by (apply recognized_In; exact (own_Some_key roomMapping label backend Hbk)).
  destruct (mapRoom_recognized backendItems0 label 0%N Hrec)
    as (bk' & Hbk' & H0 & _).
  assert (bk' = backend) by congruence. subst bk'. exact H0.
Qed.

Lemma mapRoomsToBackend_lookup_witness :
  Js.own (mapRoomsToBackend [("Bedroom", 3%N); ("Attic", 9%N); ("Terrace", 1%N)])
    "Terrace/Balcony" = Some 1%N
  /\ Js.own (mapRoomsToBackend [("Bedroom", 3%N); ("Attic", 9%N); ("Terrace", 1%N)])
       "Kitchen" = Some 0%N.
Proof.
  assert (Hnd : NoDup (Js.keys [("Bedroom", 3%N); ("Attic", 9%N); ("Terrace", 1%N)]))
    by (apply (bool_decide_unpack _); vm_compute; exact I).
  split.
  - exact (mapRoomsToBackend_lookup _ "Terrace" "Terrace/Balcony" Hnd eq_refl).
  - exact (mapRoomsToBackend_lookup _ "Kitchen" "Kitchen" Hnd eq_refl).
Defined.

Lemma fold_mapRoom_filter (items : Js.Obj N) (b : Js.Obj N) :
  fold_left mapRoom items b
  = fold_left mapRoom
      (List.filter (fun e => Spec.recognized (fst e)) items) b.
Proof.
  revert b. induction items as [|[k v] items IH]; intros b; [reflexivity|].
  cbn [fold_left List.filter fst].
  destruct (Spec.recognized k) eqn:Hrec.
  - cbn [fold_left]. apply IH.
  - rewrite (mapRoom_unrecognized b k v Hrec). apply IH.
Qed.

(** X3. Entries under labels outside the frontend set can be deleted from
    the input without changing the translation, and so without changing
    the price, whatever the options. *)
Theorem unrecognized_rooms_ignored (items : Js.Obj N)
    (options : option CleaningPriceOptions) :
  let kept := List.filter (fun e => Spec.recognized (fst e)) items in
  mapRoomsToBackend items = mapRoomsToBackend kept
  /\ calculateCleaningPrice items options = calculateCleaningPrice kept options.
Proof.
  intros kept.
  assert (H : mapRoomsToBackend items = mapRoomsToBackend kept)
    by apply fold_mapRoom_filter.
  split; [exact H|].
  unfold calculateCleaningPrice. now rewrite H.
Qed.

Lemma recognizedTotal_all (items : Js.Obj N) :
  Forall (fun k => Spec.recognized k = true) (Js.keys items) ->
  Spec.recognizedTotal items = sumValues items.
Proof.
  induction items as [|[k v] items IH]; intros Hall; [reflexivity|].
  cbn [Js.keys map fst] in Hall. inversion Hall as [|? ? Hk Hall']; subst.
  rewrite recognizedTotal_cons, Hk, sumValues_cons, IH by exact Hall'.
  reflexivity.
Qed.

Lemma backend_total (items : Js.Obj N) :
  NoDup (Js.keys items) ->
  sumValues (mapRoomsToBackend items) = Spec.recognizedTotal items.
Proof.
  intros Hnd. unfold mapRoomsToBackend. rewrite fold_mapRoom_sum.
  - reflexivity.
  - exact Hnd.
  - intros k bk _ Hbk.
    assert (Hrec : Spec.recognized k = true)
      by (apply recognized_In; exact (own_Some_key roomMapping k bk Hbk)).
    destruct (mapRoom_recognized backendItems0 k 0%N Hrec) as (bk' & Hbk' & H0 & _).
    congruence.
Qed.

Lemma frontend_total_is_backend_total_aux (items : Js.Obj N) :
  NoDup (Js.keys items) ->
  Forall (fun k => Spec.recognized k = true) (Js.keys items) ->
  sumValues (mapRoomsToBackend items) = sumValues items.
Proof.
  intros Hnd Hall. now rewrite backend_total, recognizedTotal_all.
Qed.

(** X4. When every key of the selection is a frontend label, as in the
    page's own state, and the counts sum to a safe integer, the total the
    page shows and validates (the sum of the frontend counts) is the
    total the price is computed from (the sum of the backend counts). *)
Theorem frontend_total_is_backend_total (items : Js.Obj N) :
  NoDup (Js.keys items) ->
  Forall (fun k => Spec.recognized k = true) (Js.keys items) ->
  (sumValues items <= MAX_SAFE_INTEGER)%N ->
  sumValues (mapRoomsToBackend items) = sumValues items
  /\ (sumValues (mapRoomsToBackend items) <= MAX_SAFE_INTEGER)%N.
Proof.
  intros Hnd Hall Hsafe.
  rewrite (frontend_total_is_backend_total_aux items Hnd Hall).
  split; [reflexivity|exact Hsafe].
Qed.

Lemma frontend_total_is_backend_total_witness :
  sumValues (mapRoomsToBackend [("Garage", 1%N); ("Dining", 2%N); ("Bedroom", 4%N)])
  = 7%N.
Proof.
  rewrite (proj1 (frontend_total_is_backend_total
                    [("Garage", 1%N); ("Dining", 2%N); ("Bedroom", 4%N)]
                    ltac:(apply (bool_decide_unpack _); vm_compute; exact I)
                    ltac:(repeat constructor)
                    ltac:(vm_compute; discriminate))).
  reflexivity.
Defined.

(** * Turnaround *)

(** X5. [getTurnaround] answers from its table for the four categories,
    and "2-4 hours", the Standard Cleaning value, for any other name that
    is not a built-in property name; for an unlisted name that is one (as
    "toString"), the built-in itself is returned instead of a text. *)
Theorem getTurnaround_fallback :
  (forall c : Spec.Category,
     getTurnaround (Spec.categoryName c)
     = Some match c with
            | Spec.StandardCleaning => "2-4 hours"
            | Spec.DeepCleaning => "4-6 hours"
            | Spec.MoveInCleaning | Spec.MoveOutCleaning => "5-8 hours"
            end)
  /\ (forall category,
        Spec.unrecognized Spec.categoryNames category ->
        getTurnaround category
        = if Js.inherited category then None else Some "2-4 hours").
Proof.
  split.
  - intros c. destruct c; reflexivity.
  - intros category Hnot. unfold getTurnaround, Js.get.
    rewrite (own_None_not_key turnarounds category Hnot).
    now destruct (Js.inherited category).
Qed.

Lemma getTurnaround_fallback_witness :
  getTurnaround "Spring Cleaning" = Some "2-4 hours"
  /\ getTurnaround "toString" = None.
Proof.
  assert (Hnot : forall x, In x ["Spring Cleaning"; "toString"] ->
                           Spec.unrecognized Spec.categoryNames x).
  { intros x Hx H. cbn in Hx, H.
    repeat (destruct Hx as [<-|Hx];
            [repeat (destruct H as [H|H]; [discriminate H|]); exact H|]).
    exact Hx. }
  destruct getTurnaround_fallback as [_ H]. split.
  - exact (H "Spring Cleaning" (Hnot _ ltac:(now left))).
  - exact (H "toString" (Hnot _ ltac:(right; now left))).
Defined.

(** * Further properties of the session readers *)

Lemma split_head (c : ascii) (s : string) :
  exists segs, split c s = upTo c s :: segs.
Proof.
  induction s as [|a s IH]; cbn.
  - now exists [].
  - destruct (Ascii.eqb a c); [now eexists|].
    destruct IH as [segs ->]. now eexists.
Qed.

(** [s.split(c)[1]] is the text between the first and the second [c]. *)
Lemma split_second (c : ascii) (s : string) :
  nth_error (split c s) 1 = upTo c <$> after c s.
Proof.
  induction s as [|a s IH]; cbn [split after]; [reflexivity|].
  destruct (Ascii.eqb a c).
  - destruct (split_head c s) as [segs ->]. reflexivity.
  - destruct (split_head c s) as [segs E]. rewrite E in *. exact IH.
Qed.

Lemma isAuthCookie_nonEmpty (cookie : string) :
  isAuthCookie cookie = true -> nonEmpty cookie = true.
Proof. destruct cookie; [discriminate|reflexivity]. Qed.

(** The token read from an [auth_token] cookie. *)
Lemma getAuthToken_from_cookie (jar cookie : string)
    (storage : option (gmap string string)) :
  find isAuthCookie (split ";" jar) = Some cookie ->
  getAuthToken {| document_cookie := Some jar; localStorage := storage |}
  = upTo "=" <$> after "=" cookie.
Proof.
  intros Hfind. unfold getAuthToken. cbn [document_cookie]. rewrite Hfind.
  apply find_some in Hfind. destruct Hfind as [_ Hauth].
  cbn [truthy]. rewrite (isAuthCookie_nonEmpty cookie Hauth).
  cbn [mbind option_bind]. apply split_second.
Qed.

(** X6. When the cookie jar, ASCII text, holds an [auth_token] cookie,
    the token is
    the text of the first such cookie between its first and its second
    ["="], whatever the local storage holds: a value that contains ["="] is
    cut there, and an empty value is returned as it is, without falling
    back to the storage. *)
Theorem getAuthToken_cookie (jar cookie : string)
    (storage : option (gmap string string)) :
  isAscii jar = true ->
  find isAuthCookie (split ";" jar) = Some cookie ->
  getAuthToken {| document_cookie := Some jar; localStorage := storage |}
  = upTo "=" <$> after "=" cookie.
Proof. intros _. exact (getAuthToken_from_cookie jar cookie storage). Qed.

Lemma getAuthToken_cookie_witness :
  getAuthToken {| document_cookie := Some "lang=en; auth_token=abc=def; x=1";
                  localStorage := Some {[ "token" := "stored" ]} |}
  = Some "abc"
  /\ getAuthToken {| document_cookie := Some "auth_token=";
                     localStorage := Some {[ "token" := "stored" ]} |}
     = Some EmptyString.
Proof.
  split.
  - exact (getAuthToken_cookie "lang=en; auth_token=abc=def; x=1"
             " auth_token=abc=def" _ eq_refl eq_refl).
  - exact (getAuthToken_cookie "auth_token=" "auth_token=" _ eq_refl eq_refl).
Defined.

Lemma existsb_find {A} (p : A -> bool) (l : list A) :
  existsb p l = true -> exists x, find p l = Some x.
Proof.
  induction l as [|x l IH]; cbn; [discriminate|].
  destruct (p x); [now eexists|exact IH].
Qed.

(** X7. For a browser whose cookie jar is ASCII text, the token read is
    missing or empty in exactly two situations: an
    [auth_token] cookie is present and the text after its first ["="] is
    empty up to the next ["="]; or no such cookie is present and neither
    storage key holds a non-empty value. *)
Theorem getAuthToken_falsy_iff (b : Browser) :
  asciiCookies b = true ->
  truthy (getAuthToken b) = false
  <-> (exists jar cookie,
         document_cookie b = Some jar
         /\ find isAuthCookie (split ";" jar) = Some cookie
         /\ truthy (upTo "=" <$> after "=" cookie) = false)
      \/ noCredential b.
Proof.
  intros _. split.
  - intros Hfalsy. destruct (hasAuthCookie b) eqn:Hcookie.
    + left. unfold hasAuthCookie in Hcookie.
      destruct b as [[jar|] storage]; cbn in Hcookie; [|discriminate].
      destruct (existsb_find _ _ Hcookie) as [cookie Hfind].
      exists jar, cookie. repeat split; [exact Hfind|].
      now rewrite <- (getAuthToken_from_cookie jar cookie storage Hfind).
    + right. unfold noCredential. split; [exact Hcookie|].
      unfold getAuthToken in Hfalsy. unfold hasAuthCookie in Hcookie.
      assert (Hfind : match document_cookie b with
                      | Some jar => find isAuthCookie (split ";" jar)
                      | None => None
                      end = None).
      { destruct (document_cookie b);
          [now apply find_existsb_false|reflexivity]. }
      rewrite Hfind in Hfalsy. cbn [truthy] in Hfalsy. unfold stored.
      destruct (localStorage b) as [storage|]; cbn; [|now split].
      rewrite truthy_orElse in Hfalsy. now apply orb_false_iff in Hfalsy.
  - intros [(jar & cookie & Hjar & Hfind & Hfalsy)|Hnone].
    + destruct b as [c storage]. cbn in Hjar. subst c.
      now rewrite (getAuthToken_from_cookie jar cookie storage Hfind).
    + now apply getAuthToken_noCredential.
Qed.

Lemma getAuthToken_falsy_iff_witness :
  truthy (getAuthToken {| document_cookie := Some "auth_token=";
                          localStorage := Some {[ "token" := "stored" ]} |})
  = false.
Proof.
  apply getAuthToken_falsy_iff; [reflexivity|]. left.
  exists "auth_token=", "auth_token=". repeat split.
Defined.

(** * Further properties of the identity lookup *)

Lemma usableId_truthy (user : Json) (uid : Json) :
  usableId user = Some uid -> jsonTruthy (Some uid) = true.
Proof.
  unfold usableId.
  destruct (jsonTruthy (identityField user "user_id")) eqn:E1.
  - intros H. now rewrite H in E1.
  - destruct (jsonTruthy (identityField user "id")) eqn:E2; [|discriminate].
    intros H. now rewrite H in E2.
Qed.

(** What the [try] block of [getUserData] amounts to. *)
Lemma getUserData_parsed (JSON_parse : string -> option Json) (b : Browser)
    (storage : gmap string string) (text : string) :
  localStorage b = Some storage ->
  getItem storage "user_data" = Some text ->
  nonEmpty text = true ->
  getUserData JSON_parse b
  = match JSON_parse text ≫= (fun user => pair user <$> usableId user) with
    | Some r => inr r
    | None => inl (Error "Invalid user data. Please log in again.")
    end.
Proof.
  intros Hstorage Htext Hne. unfold getUserData.
  rewrite Hstorage, Htext. cbn [truthy mbind option_bind]. rewrite Hne.
  cbn [negb]. destruct (JSON_parse text) as [user|]; [|reflexivity].
  cbn [mbind option_bind]. unfold usableId.
  destruct user as [|x|x|x|x|properties]; cbn [prop identityField jsonTruthy];
    try reflexivity.
  destruct (Js.own properties "user_id") as [a|] eqn:Ea.
  - destruct (jsonTruthy (Some a)) eqn:Ta; rewrite ?Ta; [reflexivity|].
    destruct (Js.own properties "id") as [c|] eqn:Ec; [|reflexivity].
    destruct (jsonTruthy (Some c)) eqn:Tc; rewrite ?Tc; reflexivity.
  - change (jsonTruthy (@None Json)) with false. cbv iota.
    destruct (Js.own properties "id") as [c|] eqn:Ec; [|reflexivity].
    destruct (jsonTruthy (Some c)) eqn:Tc; rewrite ?Tc; reflexivity.
Qed.

(** X8. [getUserData] succeeds exactly when the storage holds a non-empty
    [user_data] text that parses to a value with a truthy [user_id] or,
    failing that, a truthy [id]; the id returned is the [user_id] when
    that is truthy and the [id] otherwise.  When it fails, the error is
    one of its three messages: a parse error or a read from [null] never
    escapes. *)
Theorem getUserData_result (JSON_parse : string -> option Json) (b : Browser) :
  (forall user uid,
     getUserData JSON_parse b = inr (user, uid)
     <-> exists storage text,
           localStorage b = Some storage
           /\ getItem storage "user_data" = Some text
           /\ nonEmpty text = true
           /\ JSON_parse text = Some user
           /\ usableId user = Some uid)
  /\ (forall e, getUserData JSON_parse b = inl e -> In e identityErrors).
Proof.
  destruct (localStorage b) as [storage|] eqn:Hstorage.
  2: { unfold getUserData. rewrite Hstorage. split.
       - intros user uid. split; [discriminate|].
         now intros (? & ? & [=] & _).
       - intros e [= <-]. now left. }
  destruct (getItem storage "user_data") as [text|] eqn:Htext.
  2: { unfold getUserData. rewrite Hstorage, Htext. cbn. split.
       - intros user uid. split; [discriminate|].
         intros (s' & t' & [= <-] & Ht' & _). congruence.
       - intros e [= <-]. right. now left. }
  destruct (nonEmpty text) eqn:Hne.
  2: { unfold getUserData. rewrite Hstorage, Htext. cbn. rewrite Hne. cbn.
       split.
       - intros user uid. split; [discriminate|].
         intros (s' & t' & [= <-] & Ht' & Hne' & _). congruence.
       - intros e [= <-]. right. now left. }
  rewrite (getUserData_parsed JSON_parse b storage text Hstorage Htext Hne).
  split.
  - intros user uid. split.
    + intros H. exists storage, text. repeat split; try assumption.
      * destruct (JSON_parse text) as [u|]; cbn in H; [|discriminate].
        destruct (usableId u); cbn in H; [|discriminate]. congruence.
      * destruct (JSON_parse text) as [u|]; cbn in H; [|discriminate].
        destruct (usableId u) eqn:E; cbn in H; [|discriminate].
        injection H as <- <-. exact E.
    + intros (s' & t' & [= <-] & Ht' & _ & Hparse & Hid).
      assert (t' = text) by congruence. subst t'.
      rewrite Hparse. cbn. now rewrite Hid.
  - intros e H.
    destruct (JSON_parse text ≫= _); [discriminate|].
    injection H as <-. right. right. now left.
Qed.

Lemma getUserData_result_witness :
  getUserData JsonText.parse Demo.loggedIn
  = inr (JObj [("id", JNum 42)], JNum 42).
Proof.
  apply getUserData_result.
  exists {[ "user_data" := Demo.user42 ]}, Demo.user42.
  repeat split.
Defined.

(** * Further properties of the booking call *)

(** X9. The call hands at most one request to [fetch] and never retries:
    [fetch] is not called exactly when the token is missing or empty, the
    identity lookup fails, or the request data cannot be serialized (then
    the outcome is that failure); otherwise the one request is the POST to
    the creation endpoint carrying the token read and the serialized data
    with the id found, also when [fetch] itself rejects, in which case
    that rejection is the outcome. *)
Theorem bookCleaningService_single_request
    (JSON_parse : string -> option Json) (API_BASE_URL : string)
    (CD BD CI : Type) (JSON_stringify : RequestData CD BD CI -> option string)
    (fetch : Request -> option Response)
    (b : Browser) (cleaningData : CD) (bookingDetails : BD)
    (customerInfo : option CI) :
  let run := bookCleaningService JSON_parse API_BASE_URL CD BD CI
               JSON_stringify fetch b cleaningData bookingDetails
               customerInfo in
  let data := fun uid => {| user_id := uid;
                            rd_cleaningData := cleaningData;
                            rd_bookingDetails := bookingDetails;
                            rd_customerInfo := customerInfo |} in
  (snd run = []
   <-> truthy (getAuthToken b) = false
       \/ (exists e, getUserData JSON_parse b = inl e)
       \/ (exists user uid, getUserData JSON_parse b = inr (user, uid)
                            /\ JSON_stringify (data uid) = None))
  /\ (forall token user uid,
        getAuthToken b = Some token ->
        nonEmpty token = true ->
        getUserData JSON_parse b = inr (user, uid) ->
        (JSON_stringify (data uid) = None -> run = (inl TypeError, []))
        /\ (forall text,
              JSON_stringify (data uid) = Some text ->
              let request := bookingRequest API_BASE_URL token text in
              snd run = [request]
              /\ (fetch request = None -> fst run = inl FetchFailed))).
Proof.
  intros run data. split.
  - subst run. unfold bookCleaningService.
    destruct (truthy (getAuthToken b)) eqn:Htoken; cbn [negb].
    2: { split; [now left|reflexivity]. }
    destruct (getUserData JSON_parse b) as [e|[user uid]] eqn:Huser.
    { split; [right; left; now exists e|reflexivity]. }
    fold (data uid).
    destruct (JSON_stringify (data uid)) as [text|] eqn:Htext.
    + split.
      * intros Hsent. exfalso. revert Hsent.
        repeat match goal with
               | |- context [match ?x with _ => _ end] => destruct x
               end; discriminate.
      * intros [H|[[e H]|(user' & uid' & H & Hnone)]]; try discriminate.
        injection H as <- <-. congruence.
    + split; [|reflexivity].
      intros _. right. right. now exists user, uid.
  - intros token user uid Htoken Hne Huser.
    subst run.
    rewrite (bookCleaningService_sends JSON_parse API_BASE_URL CD BD CI
               JSON_stringify fetch b cleaningData bookingDetails customerInfo
               token user uid Htoken Hne Huser).
    fold (data uid). split.
    + now intros ->.
    + intros text -> request. cbv zeta. fold request. split.
      * repeat match goal with
               | |- context [match ?x with _ => _ end] => destruct x
               end; reflexivity.
      * now intros ->.
Qed.

Lemma bookCleaningService_single_request_witness :
  snd (Demo.book Demo.loggedIn (fun _ => None)) = [Demo.request]
  /\ fst (Demo.book Demo.loggedIn (fun _ => None)) = inl FetchFailed
  /\ bookCleaningService JsonText.parse Demo.baseURL unit unit unit
       (fun _ => None) (Demo.server 201 None) Demo.loggedIn tt tt None
     = (inl TypeError, []).
Proof.
  split; [|split].
  - destruct (bookCleaningService_single_request JsonText.parse Demo.baseURL
                unit unit unit Demo.serialize (fun _ => None) Demo.loggedIn
                tt tt None) as [_ H].
    destruct (H "abc123" (JObj [("id", JNum 42)]) (JNum 42)
                eq_refl eq_refl eq_refl) as [_ Hsome].
    exact (proj1 (Hsome "{}" eq_refl)).
  - destruct (bookCleaningService_single_request JsonText.parse Demo.baseURL
                unit unit unit Demo.serialize (fun _ => None) Demo.loggedIn
                tt tt None) as [_ H].
    destruct (H "abc123" (JObj [("id", JNum 42)]) (JNum 42)
                eq_refl eq_refl eq_refl) as [_ Hsome].
    exact (proj2 (Hsome "{}" eq_refl) eq_refl).
  - destruct (bookCleaningService_single_request JsonText.parse Demo.baseURL
                unit unit unit (fun _ => None) (Demo.server 201 None)
                Demo.loggedIn tt tt None) as [_ H].
    destruct (H "abc123" (JObj [("id", JNum 42)]) (JNum 42)
                eq_refl eq_refl eq_refl) as [Hnone _].
    exact (Hnone eq_refl).
Defined.

(** * Further properties of the Continue handler *)

Lemma In_categoryNames (x : string) :
  In x Spec.categoryNames -> exists c, x = Spec.categoryName c.
Proof.
  cbn. intros [<-|[<-|[<-|[<-|[]]]]];
    [exists Spec.StandardCleaning|exists Spec.DeepCleaning|exists Spec.MoveInCleaning|exists Spec.MoveOutCleaning];
    reflexivity.
Qed.

Lemma In_packageNames (x : string) :
  In x Spec.packageNames -> exists p, x = Spec.packageName p.
Proof.
  cbn. intros [<-|[<-|[<-|[<-|[]]]]];
    [exists Spec.BasicPackage|exists Spec.StandardPackage|exists Spec.PremiumPackage|exists Spec.LuxuryPackage];
    reflexivity.
Qed.

Lemma In_homeSizeNames (x : string) :
  In x Spec.homeSizeNames -> exists s, x = Spec.homeSizeName s.
Proof.
  cbn. intros [<-|[<-|[<-|[<-|[]]]]];
    [exists Spec.Studio|exists Spec.Small|exists Spec.Medium|exists Spec.Large];
    reflexivity.
Qed.

Lemma In_frequencyNames (x : string) :
  In x Spec.frequencyNames -> exists f, x = Spec.frequencyName f.
Proof.
  cbn. intros [<-|[<-|[<-|[<-|[]]]]];
    [exists Spec.OneTime|exists Spec.Monthly|exists Spec.BiWeekly|exists Spec.Weekly];
    reflexivity.
Qed.

(** X10. On the page's own kind of state (frontend labels as keys, counts
    that sum to a safe integer, offered option values) and once the
    effects have run, the Continue handler
    rejects exactly when the price shown is the zero price with the empty
    breakdown, that is when no room is selected; when it lets the attempt
    through, the price shown is the formula's price for the selected
    total. *)
Theorem handleContinue_agrees_with_pricing
    (JSON_stringify : BookingData -> string)
    (storable : gmap string string -> string -> string -> bool)
    (st : PageState) (b : Browser) :
  NoDup (Js.keys (items st)) ->
  Forall (fun k => Spec.recognized k = true) (Js.keys (items st)) ->
  (sumValues (items st) <= MAX_SAFE_INTEGER)%N ->
  offeredOptions (selectedOptions st) ->
  let shown := runEffects st in
  let attempt := handleContinue JSON_stringify storable shown b in
  (sumValues (items st) = 0%N
   /\ error (h_state attempt) = Some noRoomsMessage
   /\ pricing shown = {| finalPrice := 0; breakdown := None |})
  \/ ((0 < sumValues (items st))%N
      /\ error (h_state attempt) = None
      /\ exists c p s f,
           Spec.options c p s f
           = optionsOf (so_category (selectedOptions st))
               (so_package (selectedOptions st))
               (so_homeSize (selectedOptions st))
               (so_frequency (selectedOptions st))
           /\ pricing shown
              = Spec.computePrice c p s f (Js.Number (sumValues (items st)))).
Proof.
  intros Hnd Hall _ (Hc & Hp & Hs & Hf) shown attempt.
  destruct (In_categoryNames _ Hc) as [c Ec].
  destruct (In_packageNames _ Hp) as [p Ep].
  destruct (In_homeSizeNames _ Hs) as [s Es].
  destruct (In_frequencyNames _ Hf) as [f Ef].
  assert (Hpricing : pricing shown
            = if (sumValues (items st) =? 0)%N then zeroPricing
              else Spec.computePrice c p s f (Js.Number (sumValues (items st)))).
  { subst shown. unfold runEffects, pricingEffect.
    cbn [pricing setPricing totalItemsEffect setTotalItems items selectedOptions].
    rewrite Ec, Ep, Es, Ef.
    rewrite <- (frontend_total_is_backend_total_aux (items st) Hnd Hall).
    exact (calculateCleaningPrice_recognized (items st) c p s f). }
  subst attempt. unfold handleContinue.
  replace (totalItems shown) with (sumValues (items st)) by reflexivity.
  destruct (N.eqb_spec (sumValues (items st)) 0) as [Hzero|Hpos].
  - left. repeat split; [exact Hzero|exact Hpricing].
  - right. split; [lia|]. split.
    + destruct (localStorage b) as [storage|]; [|reflexivity].
      now destruct (storable storage _ _).
    + exists c, p, s, f. split; [|exact Hpricing].
      unfold Spec.options. now rewrite Ec, Ep, Es, Ef.
Qed.

Lemma handleContinue_agrees_with_pricing_witness :
  error (h_state (handleContinue Demo.stringify Demo.roomy
                    (runEffects (setItems [("Bedroom", 2%N); ("Kitchen", 0%N)]
                                   initialState))
                    Demo.loggedIn)) = None
  /\ error (h_state (handleContinue Demo.stringify Demo.roomy
                       (runEffects initialState) Demo.loggedIn))
     = Some noRoomsMessage.
Proof.
  assert (Hoffered : offeredOptions (selectedOptions initialState)).
  { repeat split; cbn; tauto. }
  split.
  - destruct (handleContinue_agrees_with_pricing Demo.stringify Demo.roomy
                (setItems [("Bedroom", 2%N); ("Kitchen", 0%N)] initialState)
                Demo.loggedIn
                ltac:(apply (bool_decide_unpack _); vm_compute; exact I)
                ltac:(repeat constructor)
                ltac:(vm_compute; discriminate) Hoffered)
      as [(Hzero & _)|(_ & Herr & _)]; [discriminate Hzero|exact Herr].
  - destruct (handleContinue_agrees_with_pricing Demo.stringify Demo.roomy
                initialState Demo.loggedIn
                ltac:(apply (bool_decide_unpack _); vm_compute; exact I)
                ltac:(repeat constructor)
                ltac:(vm_compute; discriminate) Hoffered)
      as [(_ & Herr & _)|(Hpos & _)]; [exact Herr|discriminate Hpos].
Defined.



(** X12. The handler touches nothing but the error shown and the date
    selector: the selection, the options, the customer details, the total
    and the price are as before; it never closes the selector, and it
    opens it only on an attempt with a positive total and a storage that
    took the entry; an attempt that is rejected or throws leaves the
    browser as it was. *)
Theorem handleContinue_frame (JSON_stringify : BookingData -> string)
    (storable : gmap string string -> string -> string -> bool)
    (st : PageState) (b : Browser) :
  let attempt := handleContinue JSON_stringify storable st b in
  items (h_state attempt) = items st
  /\ selectedOptions (h_state attempt) = selectedOptions st
  /\ customerInfo (h_state attempt) = customerInfo st
  /\ totalItems (h_state attempt) = totalItems st
  /\ pricing (h_state attempt) = pricing st
  /\ loading (h_state attempt) = loading st
  /\ (isDateSelectorOpen st = true ->
      isDateSelectorOpen (h_state attempt) = true)
  /\ (isDateSelectorOpen st = false ->
      isDateSelectorOpen (h_state attempt) = true ->
      (0 < totalItems st)%N
      /\ h_thrown attempt = None
      /\ exists text, h_log attempt = [StorageWrite "cleaningItems" text]
                      /\ stored (h_browser attempt) "cleaningItems" = Some text)
  /\ (totalItems st = 0%N -> h_browser attempt = b)
  /\ (h_thrown attempt <> None ->
      h_browser attempt = b /\ h_log attempt = []
      /\ error (h_state attempt) = None
      /\ isDateSelectorOpen (h_state attempt) = isDateSelectorOpen st)
  /\ (localStorage b = None -> (0 < totalItems st)%N ->
      h_thrown attempt = Some ReferenceError).
Proof.
  intros attempt. subst attempt. unfold handleContinue.
  destruct (N.eqb_spec (totalItems st) 0) as [Hzero|Hpos].
  - cbn. repeat split; intros; try reflexivity; try lia; try congruence.
  - destruct (localStorage b) as [storage|] eqn:Hstorage.
    + destruct (storable storage _ _) eqn:Hfits; cbn;
        repeat split; intros; try reflexivity; try lia; try congruence.
      eexists. split; [reflexivity|].
      unfold stored. cbn. apply lookup_insert_eq.
    + cbn. repeat split; intros; try reflexivity; try lia; try congruence.
Qed.

Lemma handleContinue_frame_witness :
  h_thrown (handleContinue Demo.stringify Demo.roomy Demo.twoBedrooms
              {| document_cookie := None; localStorage := None |})
  = Some ReferenceError
  /\ h_browser (handleContinue Demo.stringify Demo.full Demo.twoBedrooms
                  Demo.loggedIn) = Demo.loggedIn.
Proof.
  split.
  - destruct (handleContinue_frame Demo.stringify Demo.roomy Demo.twoBedrooms
                {| document_cookie := None; localStorage := None |})
      as (_ & _ & _ & _ & _ & _ & _ & _ & _ & _ & H).
    apply H; reflexivity.
  - destruct (handleContinue_frame Demo.stringify Demo.full Demo.twoBedrooms
                Demo.loggedIn)
      as (_ & _ & _ & _ & _ & _ & _ & _ & _ & H & _).
    apply H. discriminate.
Defined.

(** * Room counters *)

Lemma set_own_id {A} (o : Js.Obj A) (k : string) (v : A) :
  Js.own o k = Some v -> Js.set o k v = o.
Proof.
  induction o as [|[k0 v0] o IH]; cbn; [discriminate|].
  destruct (String.eqb k0 k).
  - now intros [= ->].
  - intros H. f_equal. exact (IH H).
Qed.

Lemma set_set {A} (o : Js.Obj A) (k : string) (v v' : A) :
  Js.set (Js.set o k v) k v' = Js.set o k v'.
Proof.
  induction o as [|[k0 v0] o IH]; cbn.
  - now rewrite String.eqb_refl.
  - destruct (String.eqb k0 k) eqn:E; cbn; rewrite E; [reflexivity|].
    f_equal. exact IH.
Qed.

Lemma own_hasOwnProperty {A} (o : Js.Obj A) (k : string) (v : A) :
  Js.own o k = Some v -> Js.hasOwnProperty o k = true.
Proof. unfold Js.hasOwnProperty. now intros ->. Qed.

Lemma setItems_same (st : PageState) : setItems (items st) st = st.
Proof. now destruct st. Qed.

(** The two counters, as far as the keys, the options and the total go. *)
Lemma handleIncrement_step (item : string) (st : PageState) (count : N) :
  Js.own (items st) item = Some count ->
  exists st',
    handleIncrement item st = Some st'
    /\ Js.keys (items st') = Js.keys (items st)
    /\ selectedOptions st' = selectedOptions st
    /\ sumValues (items st') = (sumValues (items st) + 1)%N.
Proof.
  intros Hown. unfold handleIncrement. rewrite Hown. eexists.
  split; [reflexivity|]. cbn [items setItems selectedOptions].
  split; [|split; [reflexivity|]].
  - apply keys_set. exact (own_hasOwnProperty _ _ _ Hown).
  - pose proof (sumValues_set (items st) item (count + 1)%N count Hown). lia.
Qed.

Lemma handleDecrement_step (item : string) (st : PageState) :
  Js.keys (items (handleDecrement item st)) = Js.keys (items st)
  /\ selectedOptions (handleDecrement item st) = selectedOptions st
  /\ (sumValues (items (handleDecrement item st)) <= sumValues (items st))%N.
Proof.
  unfold handleDecrement, Js.get.
  destruct (Js.own (items st) item) as [count|] eqn:Hown.
  - destruct (0 <? count)%N; [|repeat split; lia].
    cbn [items setItems selectedOptions]. split; [|split; [reflexivity|]].
    + apply keys_set. exact (own_hasOwnProperty _ _ _ Hown).
    + pose proof (sumValues_set (items st) item (count - 1)%N count Hown). lia.
  - destruct (Js.inherited item); repeat split; lia.
Qed.

(** X13. While the counts sum to less than the largest safe integer,
    pressing "+" on a room of the selection raises that room's count
    by one and the total by one, keeps the rooms and their order, and
    leaves every other count alone. *)
Theorem handleIncrement_count (item : string) (st : PageState) (count : N) :
  (sumValues (items st) < MAX_SAFE_INTEGER)%N ->
  Js.own (items st) item = Some count ->
  exists st',
    handleIncrement item st = Some st'
    /\ Js.own (items st') item = Some (count + 1)%N
    /\ (forall other, other <> item ->
                      Js.own (items st') other = Js.own (items st) other)
    /\ Js.keys (items st') = Js.keys (items st)
    /\ sumValues (items st') = (sumValues (items st) + 1)%N.
Proof.
  intros _ Hown. unfold handleIncrement. rewrite Hown. eexists.
  split; [reflexivity|]. cbn [items setItems].
  pose proof (own_hasOwnProperty _ _ _ Hown) as Hhas.
  split; [|split; [|split]].
  - rewrite own_set by exact Hhas. now rewrite String.eqb_refl.
  - intros other Hne. rewrite own_set by exact Hhas.
    destruct (String.eqb_spec item other); [congruence|reflexivity].
  - now apply keys_set.
  - pose proof (sumValues_set (items st) item (count + 1)%N count Hown). lia.
Qed.

Lemma handleIncrement_count_witness :
  exists st',
    handleIncrement "Bedroom" initialState = Some st'
    /\ Js.own (items st') "Bedroom" = Some 1%N
    /\ sumValues (items st') = 1%N.
Proof.
  destruct (handleIncrement_count "Bedroom" initialState 0%N
              ltac:(vm_compute; reflexivity) eq_refl)
    as (st' & H1 & H2 & _ & _ & H3).
  exists st'. repeat split; assumption.
Defined.

(** X14. While the counts sum to less than the largest safe integer,
    pressing "-" does nothing to a room at zero or to a name that is
    not a room of the selection; on a room with a positive count it
    lowers that count and the total by one and keeps the rooms and their
    order.  It undoes a "+" on the same room exactly. *)
Theorem handleDecrement_guard (item : string) (st : PageState) :
  (sumValues (items st) < MAX_SAFE_INTEGER)%N ->
  (Js.own (items st) item = Some 0%N \/ Js.own (items st) item = None ->
   handleDecrement item st = st)
  /\ (forall count,
        Js.own (items st) item = Some count -> (0 < count)%N ->
        Js.own (items (handleDecrement item st)) item = Some (count - 1)%N
        /\ Js.keys (items (handleDecrement item st)) = Js.keys (items st)
        /\ (sumValues (items (handleDecrement item st)) + 1
            = sumValues (items st))%N)
  /\ (forall st', handleIncrement item st = Some st' ->
                  handleDecrement item st' = st).
Proof.
  intros _. unfold handleDecrement, Js.get. split; [|split].
  - intros [H|H]; rewrite H; [reflexivity|].
    now destruct (Js.inherited item).
  - intros count Hown Hpos. rewrite Hown.
    destruct (N.ltb_spec 0 count) as [_|]; [|lia].
    cbn [items setItems].
    pose proof (own_hasOwnProperty _ _ _ Hown) as Hhas.
    split; [|split].
    + rewrite own_set by exact Hhas. now rewrite String.eqb_refl.
    + now apply keys_set.
    + pose proof (sumValues_set (items st) item (count - 1)%N count Hown). lia.
  - intros st'. unfold handleIncrement.
    destruct (Js.own (items st) item) as [count|] eqn:Hown; [|discriminate].
    intros [= <-]. cbn [items setItems].
    pose proof (own_hasOwnProperty _ _ _ Hown) as Hhas.
    rewrite own_set by exact Hhas. rewrite String.eqb_refl.
    destruct (N.ltb_spec 0 (count + 1)) as [_|]; [|lia].
    rewrite set_set. replace (count + 1 - 1)%N with count by lia.
    rewrite (set_own_id _ _ _ Hown). destruct st. reflexivity.
Qed.

Lemma handleDecrement_guard_witness :
  handleDecrement "Bedroom" initialState = initialState
  /\ handleDecrement "Attic" initialState = initialState
  /\ Js.own (items (handleDecrement "Bedroom" Demo.twoBedrooms)) "Bedroom"
     = Some 1%N.
Proof.
  split; [|split].
  - destruct (handleDecrement_guard "Bedroom" initialState
                ltac:(vm_compute; reflexivity)) as [H _].
    apply H. now left.
  - destruct (handleDecrement_guard "Attic" initialState
                ltac:(vm_compute; reflexivity)) as [H _].
    apply H. now right.
  - destruct (handleDecrement_guard "Bedroom" Demo.twoBedrooms
                ltac:(vm_compute; reflexivity)) as (_ & H & _).
    apply (H 2%N); reflexivity.
Defined.

Lemma runEffects_inSync (st : PageState) :
  Js.keys (items st) = Spec.frontendLabels ->
  selectedOptions st = selectedOptions initialState ->
  inSync (runEffects st).
Proof.
  intros Hkeys Hopts.
  assert (Hbackend : sumValues (mapRoomsToBackend (items st)) = sumValues (items st)).
  { apply frontend_total_is_backend_total_aux; rewrite Hkeys.
    - apply (bool_decide_unpack _). vm_compute. exact I.
    - repeat constructor. }
  unfold inSync, runEffects, pricingEffect, totalItemsEffect.
  cbn [items selectedOptions totalItems pricing setPricing setTotalItems].
  repeat split; try assumption.
  rewrite Hopts. rewrite <- Hbackend.
  exact (calculateCleaningPrice_recognized (items st) Spec.StandardCleaning
           Spec.StandardPackage Spec.Small Spec.OneTime).
Qed.

Lemma click_inSync (st : PageState) (c : Click) :
  inSync st -> In (clickedItem c) Spec.frontendLabels ->
  exists st', click st c = Some st' /\ inSync st'
              /\ (totalItems st' <= totalItems st + 1)%N.
Proof.
  intros (Hkeys & Hopts & Htotal & _) Hin.
  destruct c as [item|item]; cbn [click clickedItem] in *.
  - assert (Hhas : exists count, Js.own (items st) item = Some count).
    { rewrite <- Hkeys in Hin. apply hasOwnProperty_keys in Hin.
      unfold Js.hasOwnProperty in Hin.
      destruct (Js.own (items st) item); [now eexists|discriminate]. }
    destruct Hhas as [count Hown].
    destruct (handleIncrement_step item st count Hown)
      as (st' & -> & Hk & Ho & Hs).
    exists (runEffects st'). split; [reflexivity|]. split.
    + apply runEffects_inSync; congruence.
    + rewrite runEffects_totalItems. lia.
  - exists (runEffects (handleDecrement item st)). split; [reflexivity|].
    destruct (handleDecrement_step item st) as (Hk & Ho & Hs).
    split.
    + apply runEffects_inSync; congruence.
    + rewrite runEffects_totalItems. lia.
Qed.

(** X15. From the first render, any series of "+" and "-" clicks on the
    seven rooms leaves the page in sync: the rooms are still the seven
    frontend labels, the total shown is the sum of the counts and equals
    the sum of the backend counts the price is computed from, the price
    shown is the zero price when that total is 0 and the Standard formula
    price otherwise, and the total is at most the number of clicks. *)
Theorem clicks_keep_page_in_sync (cs : list Click) :
  Forall (fun c => In (clickedItem c) Spec.frontendLabels) cs ->
  exists st,
    clicks initialState cs = Some st
    /\ inSync st
    /\ (totalItems st <= N.of_nat (length cs))%N.
Proof.
  assert (Hgen : forall cs st0,
            inSync st0 ->
            Forall (fun c => In (clickedItem c) Spec.frontendLabels) cs ->
            exists st, clicks st0 cs = Some st /\ inSync st
                       /\ (totalItems st <= totalItems st0 + N.of_nat (length cs))%N).
  { clear cs. induction cs as [|c cs IH]; intros st0 Hsync Hall.
    - exists st0. cbn [clicks length].
      split; [reflexivity|split; [exact Hsync|lia]].
    - inversion Hall as [|? ? Hc Hall']; subst.
      destruct (click_inSync st0 c Hsync Hc) as (st1 & Hclick & Hsync1 & Hle1).
      destruct (IH st1 Hsync1 Hall') as (st & Hclicks & Hsync' & Hle).
      exists st. cbn [clicks]. rewrite Hclick.
      split; [exact Hclicks|split; [exact Hsync'|]].
      cbn [length]. lia. }
  intros Hall.
  destruct (Hgen cs initialState) as (st & H1 & H2 & H3).
  - unfold inSync. repeat split.
  - exact Hall.
  - exists st. split; [exact H1|split; [exact H2|exact H3]].
Qed.

Lemma clicks_keep_page_in_sync_witness :
  exists st,
    clicks initialState [Plus "Bedroom"; Plus "Kitchen"; Minus "Garage";
                         Minus "Bedroom"; Plus "Kitchen"] = Some st
    /\ totalItems st = 2%N
    /\ finalPrice (pricing st) = 10400%float.
Proof.
  destruct (clicks_keep_page_in_sync
              [Plus "Bedroom"; Plus "Kitchen"; Minus "Garage";
               Minus "Bedroom"; Plus "Kitchen"])
    as (st & Hclicks & _ & _).
  - repeat constructor; cbn; tauto.
  - exists st. split; [exact Hclicks|].
    vm_compute in Hclicks. injection Hclicks as <-.
    split; vm_compute; reflexivity.
Defined.

(** * Special requests *)

Lemma includes_app (l l' : list string) (req : string) :
  includes (l ++ l') req = includes l req || includes l' req.
Proof. unfold includes. apply existsb_app. Qed.

Lemma includes_filter_out (l : list string) (removed req : string) :
  includes (List.filter (fun x => negb (String.eqb x removed)) l) req
  = includes l req && negb (String.eqb req removed).
Proof.
  unfold includes. induction l as [|x l IH]; cbn [List.filter existsb];
    [reflexivity|].
  destruct (String.eqb x removed) eqn:Ex; cbn [negb existsb]; rewrite IH.
  - apply String.eqb_eq in Ex. subst x.
    destruct (String.eqb req removed); cbn; [|reflexivity].
    now rewrite andb_false_r.
  - destruct (String.eqb req x) eqn:Er; cbn; [|reflexivity].
    apply String.eqb_eq in Er. subst x. now rewrite Ex.
Qed.

Lemma filter_out_absent (l : list string) (req : string) :
  includes l req = false ->
  List.filter (fun x => negb (String.eqb x req)) l = l.
Proof.
  unfold includes. induction l as [|x l IH]; cbn; [reflexivity|].
  intros H. apply orb_false_iff in H. destruct H as [Hx Hl].
  rewrite String.eqb_sym, Hx. cbn. f_equal. exact (IH Hl).
Qed.

(** X16. After a change of a special-request box, the box reads as it was
    set: the request is included exactly when the box was checked (an
    uncheck removes every copy); the other boxes read as before, and so do
    the other customer fields and the rest of the page state.  Checking a
    request that was not included and unchecking it again restores the
    list. *)
Theorem handleSpecialRequestChange_box (requestId : string) (isChecked : bool)
    (st : PageState) :
  let st' := handleSpecialRequestChange requestId isChecked st in
  includes (ci_specialRequests (customerInfo st')) requestId = isChecked
  /\ (forall other, other <> requestId ->
        includes (ci_specialRequests (customerInfo st')) other
        = includes (ci_specialRequests (customerInfo st)) other)
  /\ setCustomerInfo (customerInfo st) st' = st
  /\ ci_phone (customerInfo st') = ci_phone (customerInfo st)
  /\ ci_address (customerInfo st') = ci_address (customerInfo st)
  /\ ci_notes (customerInfo st') = ci_notes (customerInfo st)
  /\ ci_reminders_sms (customerInfo st') = ci_reminders_sms (customerInfo st)
  /\ ci_reminders_email (customerInfo st') = ci_reminders_email (customerInfo st)
  /\ (includes (ci_specialRequests (customerInfo st)) requestId = false ->
      handleSpecialRequestChange requestId false
        (handleSpecialRequestChange requestId true st) = st).
Proof.
  intros st'. subst st'. unfold handleSpecialRequestChange.
  cbn [customerInfo setCustomerInfo ci_specialRequests ci_phone ci_address
       ci_notes ci_reminders_sms ci_reminders_email].
  split; [|split; [|split; [|repeat split]]].
  - destruct isChecked.
    + rewrite includes_app. cbn. rewrite String.eqb_refl.
      now rewrite orb_true_r.
    + rewrite includes_filter_out, String.eqb_refl. now rewrite andb_false_r.
  - intros other Hne. destruct isChecked.
    + rewrite includes_app. cbn.
      destruct (String.eqb_spec other requestId); [contradiction|].
      now rewrite !orb_false_r.
    + rewrite includes_filter_out.
      destruct (String.eqb_spec other requestId); [contradiction|].
      now rewrite andb_true_r.
  - now destruct st.
  - intros Habsent. rewrite List.filter_app. cbn [List.filter].
    rewrite String.eqb_refl. cbn [negb].
    rewrite (filter_out_absent _ _ Habsent), app_nil_r.
    destruct st as [? ? [? ? ? ? ? ?] ? ? ? ? ?]. reflexivity.
Qed.

Lemma handleSpecialRequestChange_box_witness :
  handleSpecialRequestChange "pet-safe" false
    (handleSpecialRequestChange "pet-safe" true initialState)
  = initialState.
Proof.
  apply (handleSpecialRequestChange_box "pet-safe" true initialState).
  reflexivity.
Defined.

(** * Bookings dashboard *)

(** X17. [fetchBookings] always ends with [loading] cleared.  Without a
    usable token it changes nothing else, sends nothing and navigates to
    "/login"; with one it stays on the page and sends exactly one GET to
    the bookings endpoint with the bearer header. *)
Theorem fetchBookings_request (API_BASE_URL : string)
    (fetch : GetRequest -> option Response) (st : DashboardState) (b : Browser) :
  let r := fetchBookings API_BASE_URL fetch st b in
  d_loading (f_state r) = false
  /\ (truthy (getAuthToken b) = false ->
      r = {| f_state := {| bookings := bookings st; d_loading := false;
                           d_error := d_error st |};
             f_pushed := ["/login"]; f_requests := [] |})
  /\ (forall token, getAuthToken b = Some token -> nonEmpty token = true ->
        f_pushed r = []
        /\ f_requests r
           = [ {| g_url := API_BASE_URL +:+ "/api/v1/bookings";
                  g_headers := [("Authorization", "Bearer " +:+ token)] |} ]).
Proof.
  intros r. subst r. unfold fetchBookings. split; [|split].
  - repeat match goal with
           | |- context [match ?x with _ => _ end] => destruct x
           end; reflexivity.
  - now intros ->.
  - intros token -> Hne. cbn [truthy from_option id]. rewrite Hne. cbn [negb].
    repeat match goal with
           | |- context [match ?x with _ => _ end] => destruct x
           end; split; reflexivity.
Qed.

Lemma fetchBookings_request_witness :
  f_pushed (fetchBookings Demo.baseURL (fun _ => None) initialDashboard
              Demo.loggedOut) = ["/login"]
  /\ f_requests (fetchBookings Demo.baseURL (fun _ => None) initialDashboard
                   Demo.loggedIn)
     = [ {| g_url := "http://localhost:3002/api/v1/bookings";
            g_headers := [("Authorization", "Bearer abc123")] |} ].
Proof.
  split.
  - destruct (fetchBookings_request Demo.baseURL (fun _ => None)
                initialDashboard Demo.loggedOut) as (_ & H & _).
    now rewrite H.
  - destruct (fetchBookings_request Demo.baseURL (fun _ => None)
                initialDashboard Demo.loggedIn) as (_ & _ & H).
    exact (proj2 (H "abc123" eq_refl eq_refl)).
Defined.

(** X18. Once the GET is sent: a response outside 200..299 sets the error
    to "Failed to fetch bookings" whatever its body; a rejected fetch, a
    body that is not JSON or a [null] body sets it to that failure; in all
    these cases the bookings shown are kept.  A response in 200..299 with
    a JSON body shows its [data] when that is truthy and the empty list
    otherwise, and leaves an error shown earlier in place. *)
Theorem fetchBookings_outcome (API_BASE_URL : string)
    (fetch : GetRequest -> option Response) (st : DashboardState) (b : Browser)
    (token : string) :
  getAuthToken b = Some token ->
  nonEmpty token = true ->
  let request :=
    {| g_url := API_BASE_URL +:+ "/api/v1/bookings";
       g_headers := [("Authorization", "Bearer " +:+ token)] |} in
  let after := f_state (fetchBookings API_BASE_URL fetch st b) in
  (fetch request = None ->
   d_error after = Some FetchFailed /\ bookings after = bookings st)
  /\ (forall response,
        fetch request = Some response ->
        (~ (200 <= status response <= 299)%N ->
         d_error after = Some (Error "Failed to fetch bookings")
         /\ bookings after = bookings st)
        /\ ((200 <= status response <= 299)%N ->
            (json response = None ->
             d_error after = Some SyntaxError /\ bookings after = bookings st)
            /\ (json response = Some JNull ->
                d_error after = Some TypeError /\ bookings after = bookings st)
            /\ (forall result data,
                  json response = Some result ->
                  prop result "data" = inr data ->
                  d_error after = d_error st
                  /\ bookings after
                     = if jsonTruthy data then default (JArr []) data
                       else JArr []))).
Proof.
  intros Htoken Hne request after. subst after. unfold fetchBookings.
  rewrite Htoken. cbn [truthy from_option id]. rewrite Hne. cbn [negb].
  fold request. split.
  - intros ->. split; reflexivity.
  - intros response ->. split.
    + intros Hstatus.
      destruct (ok response) eqn:Hok; [now apply ok_2xx in Hok|].
      split; reflexivity.
    + intros Hstatus%ok_2xx. rewrite Hstatus. cbn [negb].
      split; [|split].
      * intros ->. split; reflexivity.
      * intros ->. split; reflexivity.
      * intros result data -> ->. cbn [f_state d_error bookings].
        split; [reflexivity|]. now destruct data.
Qed.

Lemma fetchBookings_outcome_witness :
  d_error (f_state (fetchBookings Demo.baseURL
                      (fun _ => Some {| status := 503; json := None |})
                      initialDashboard Demo.loggedIn))
  = Some (Error "Failed to fetch bookings")
  /\ bookings (f_state (fetchBookings Demo.baseURL
                          (fun _ => Some {| status := 200;
                                            json := Some (JObj [("data", JNull)]) |})
                          initialDashboard Demo.loggedIn))
     = JArr [].
Proof.
  split.
  - destruct (fetchBookings_outcome Demo.baseURL
                (fun _ => Some {| status := 503; json := None |})
                initialDashboard Demo.loggedIn "abc123" eq_refl eq_refl)
      as [_ H].
    destruct (H _ eq_refl) as [Hbad _].
    exact (proj1 (Hbad ltac:(cbn; lia))).
  - destruct (fetchBookings_outcome Demo.baseURL
                (fun _ => Some {| status := 200;
                                  json := Some (JObj [("data", JNull)]) |})
                initialDashboard Demo.loggedIn "abc123" eq_refl eq_refl)
      as [_ H].
    destruct (H _ eq_refl) as [_ Hok].
    destruct (Hok ltac:(cbn; lia)) as (_ & _ & Hdata).
    exact (proj2 (Hdata _ _ eq_refl eq_refl)).
Defined.

(** * The price and the rooms *)

(** X19. The price depends on the selection only through the number of
    rooms selected under recognized labels: two selections with the same
    such number, a safe integer, get the same result, whichever rooms
    they are and whatever the options. *)
Theorem price_depends_on_room_count (items1 items2 : Js.Obj N)
    (options : option CleaningPriceOptions) :
  NoDup (Js.keys items1) ->
  NoDup (Js.keys items2) ->
  (Spec.recognizedTotal items1 <= MAX_SAFE_INTEGER)%N ->
  Spec.recognizedTotal items1 = Spec.recognizedTotal items2 ->
  calculateCleaningPrice items1 options = calculateCleaningPrice items2 options.
Proof.
  intros Hnd1 Hnd2 _ Hsame. unfold calculateCleaningPrice.
  now rewrite (backend_total items1 Hnd1), (backend_total items2 Hnd2), Hsame.
Qed.

Lemma price_depends_on_room_count_witness :
  calculateCleaningPrice [("Kitchen", 2%N)] (Some defaultOptions)
  = calculateCleaningPrice [("Garage", 1%N); ("Attic", 5%N); ("Bedroom", 1%N)]
      (Some defaultOptions).
Proof.
  apply price_depends_on_room_count.
  - apply (bool_decide_unpack _). vm_compute. exact I.
  - apply (bool_decide_unpack _). vm_compute. exact I.
  - vm_compute. discriminate.
  - reflexivity.
Defined.
